(** * pytest-lisa: test selection and scope scheduling

    A shallow embedding of [pytest-lisa/lisa.py]: the LISA marker schema and
    [validate_mark], the criteria matcher and the [select] closure of
    [pytest_collection_modifyitems], and [LISAScheduling._split_scope].

    Python [str] values are modelled as [string]: a character stands for
    a Unicode code point below 256.  The regex class [\w] is Python's on
    these code points.  [Py.casefold] is [str.casefold] on strings of code
    points below 128, where it lowers [A-Z]; above, Python folds further
    characters that the model leaves alone.  Python [int] is [Z]. *)

From Stdlib Require Import List String Ascii ZArith Bool Arith Lia.
From Stdlib Require Import Permutation.
Import ListNotations.

Set Warnings "-register-all".

Local Open Scope string_scope.

(** ** Python string operations used by the plugin *)

Module Py.

(** [needle in hay] for two [str]: [needle] occurs as a substring. *)
Fixpoint contains (needle hay : string) : bool :=
  String.prefix needle hay
  || match hay with
     | EmptyString => false
     | String _ rest => contains needle rest
     end.

Definition is_upper (c : ascii) : bool :=
  let n := nat_of_ascii c in (65 <=? n)%nat && (n <=? 90)%nat.

Definition fold_char (c : ascii) : ascii :=
  if is_upper c then ascii_of_nat (nat_of_ascii c + 32) else c.

(** [s.casefold()]. *)
Fixpoint casefold (s : string) : string :=
  match s with
  | EmptyString => EmptyString
  | String c rest => String (fold_char c) (casefold rest)
  end.

(** Truthiness of a [str], of an [int] and of a [list]. *)
Definition truthy_str (s : string) : bool :=
  match s with EmptyString => false | _ => true end.

Definition truthy_int (z : Z) : bool := negb (z =? 0)%Z.

Definition truthy_list {A : Type} (l : list A) : bool :=
  match l with [] => false | _ => true end.

(** [x in l] for a list of [str]. *)
Definition str_mem (x : string) (l : list string) : bool :=
  existsb (String.eqb x) l.

(** [set(a) <= set(b)]. *)
Definition subset (a b : list string) : bool :=
  forallb (fun x => str_mem x b) a.

End Py.

(** ** Data model *)

(** A criteria record of the playbook, after [criteria_schema] filled in the
    defaults: [None] for the four strings and the priority, [[]] for the
    tags, 1 for [times], [False] for [exclude]. *)
Module Criteria.
Record t : Type := mk {
  name : option string;
  module : option string;
  area : option string;
  category : option string;
  priority : option Z;
  tags : list string;
  times : Z;
  exclude : bool
}.

(** The record [criteria_schema] builds from an empty mapping. *)
Definition default : t :=
  mk None None None None None [] 1 false.
End Criteria.

(** The keyword arguments of a LISA marker that passed [lisa_schema]. *)
Module Meta.
Record t : Type := mk {
  platform : string;
  category : string;
  area : string;
  priority : Z;
  features : list string;
  tags : list string
}.
End Meta.

(** A collected test.  [oid] stands for the identity of the Python object:
    [Item] defines no [__eq__], so [list.count] and [in] compare by
    identity.  [name] is [item.name], [module_name] is
    [item.module.__name__], [marker] is [item.get_closest_marker("lisa")]
    with its validated keyword arguments. *)
Record Item : Type := mkItem {
  oid : nat;
  name : string;
  module_name : string;
  marker : option Meta.t
}.

Definition strings_eq_dec (a b : list string) : {a = b} + {a <> b} :=
  list_eq_dec string_dec a b.

Definition Meta_eq_dec (a b : Meta.t) : {a = b} + {a <> b}.
Proof.
  decide equality; auto using string_dec, Z.eq_dec, strings_eq_dec.
Defined.

Definition marker_eq_dec (a b : option Meta.t) : {a = b} + {a <> b}.
Proof.
  decide equality; apply Meta_eq_dec.
Defined.

Definition Item_eq_dec (a b : Item) : {a = b} + {a <> b}.
Proof.
  decide equality; auto using string_dec, Nat.eq_dec, marker_eq_dec.
Defined.

(** [l.count(x)] and [x in l] on lists of items. *)
Definition count (x : Item) (l : list Item) : nat := count_occ Item_eq_dec l x.

Definition item_in (x : Item) (l : list Item) : bool :=
  if in_dec Item_eq_dec x l then true else false.

(** ** Criteria matcher *)

(** [c[k] and test(c[k])] for an optional string field. *)
Definition and_str (field : option string) (test : string -> bool) : bool :=
  match field with
  | None => false
  | Some s => Py.truthy_str s && test s
  end.

(** [c["priority"] and c["priority"] == i["priority"]]. *)
Definition and_priority (field : option Z) (p : Z) : bool :=
  match field with
  | None => false
  | Some z => Py.truthy_int z && (z =? p)%Z
  end.

(** [c["tags"] and set(c["tags"]) <= set(i["tags"])]. *)
Definition and_tags (field : list string) (ts : list string) : bool :=
  Py.truthy_list field && Py.subset field ts.

(** The six operands of the [any([...])] of the hook, in source order. *)
Definition operands (c : Criteria.t) (item : Item) (i : Meta.t) : list bool :=
  [ and_str (Criteria.name c) (fun n => Py.contains n (name item));
    and_str (Criteria.module c) (fun m => Py.contains m (module_name item));
    and_str (Criteria.area c)
      (fun a => String.eqb (Py.casefold a) (Py.casefold (Meta.area i)));
    and_str (Criteria.category c)
      (fun k => String.eqb (Py.casefold k) (Py.casefold (Meta.category i)));
    and_priority (Criteria.priority c) (Meta.priority i);
    and_tags (Criteria.tags c) (Meta.tags i) ].

Definition any (l : list bool) : bool := existsb (fun b => b) l.

Definition matches (c : Criteria.t) (item : Item) (i : Meta.t) : bool :=
  any (operands c item i).

(** The test of the inner loop: an item without marker is skipped by
    [continue], an item with one is tested with [matches]. *)
Definition item_matches (c : Criteria.t) (item : Item) : bool :=
  match marker item with
  | None => false
  | Some i => matches c item i
  end.

(** ** Selection engine *)

(** The two lists the closure [select] appends to. *)
Record State : Type := mkState {
  included : list Item;
  excluded : list Item
}.

Definition init : State := mkState [] [].

(** [select(item, times, exclude)]: [range(n)] is empty for [n <= 0]. *)
Definition select (st : State) (item : Item) (times : Z) (exclude : bool)
  : State :=
  if exclude then
    mkState (included st) (excluded st ++ [item])
  else
    mkState
      (included st
       ++ repeat item (Z.to_nat (times - Z.of_nat (count item (included st)))))
      (excluded st).

(** Body of [for item in items] for one criteria record. *)
Definition visit (c : Criteria.t) (st : State) (item : Item) : State :=
  if item_matches c item
  then select st item (Criteria.times c) (Criteria.exclude c)
  else st.

(** [for item in items: ...] for one criteria record. *)
Definition apply_criterion (items : list Item) (st : State) (c : Criteria.t)
  : State :=
  fold_left (visit c) items st.

(** [for c in playbook.playbook.get("criteria", []): ...]. *)
Definition run_criteria (items : list Item) (criteria : list Criteria.t)
  (st : State) : State :=
  fold_left (apply_criterion items) criteria st.

(** [if not included: included = items]. *)
Definition fallback (items : list Item) (st : State) : list Item :=
  match included st with
  | [] => items
  | _ => included st
  end.

(** [[i for i in included if i not in excluded]]. *)
Definition drop_excluded (inc exc : list Item) : list Item :=
  filter (fun i => negb (item_in i exc)) inc.

(** The selection part of [pytest_collection_modifyitems]: the new value
    of [items]. *)
Definition select_items (items : list Item) (criteria : list Criteria.t)
  : list Item :=
  let st := run_criteria items criteria init in
  drop_excluded (fallback items st) (excluded st).

(** The times values of the non-exclude records that match [item], in
    declaration order. *)
Definition matching_times (criteria : list Criteria.t) (item : Item) : list Z :=
  map Criteria.times
    (filter (fun c => negb (Criteria.exclude c) && item_matches c item)
       criteria).

(** The largest of a list of times, and the same clamped at zero. *)
Definition max_times (ts : list Z) : option Z :=
  match ts with
  | [] => None
  | t :: rest => Some (fold_left Z.max rest t)
  end.

Definition max_times0 (ts : list Z) : Z := fold_left Z.max ts 0%Z.

(** [item] matches at least one record with [exclude] set. *)
Definition is_excluded (criteria : list Criteria.t) (item : Item) : bool :=
  existsb (fun c => Criteria.exclude c && item_matches c item) criteria.

(** ** The matcher as the specification words it

    A constrained field counts as set when it is present and not empty (a
    string other than the empty one, any priority, a tags list with an
    element), and each set field has its own test: substring for [name] and
    [module], case-insensitive equality for [area] and [category], equality
    for [priority], inclusion for [tags]. *)
Module SpecMatcher.

Definition set_str (field : option string) : option string :=
  match field with
  | Some (String c s) => Some (String c s)
  | _ => None
  end.

Definition satisfied_str (field : option string) (test : string -> bool)
  : bool :=
  match set_str field with
  | Some s => test s
  | None => false
  end.

Definition satisfied_priority (field : option Z) (p : Z) : bool :=
  match field with
  | Some z => (z =? p)%Z
  | None => false
  end.

Definition satisfied_tags (field ts : list string) : bool :=
  match field with
  | [] => false
  | _ => Py.subset field ts
  end.

Definition all_unset (c : Criteria.t) : bool :=
  match set_str (Criteria.name c), set_str (Criteria.module c),
        set_str (Criteria.area c), set_str (Criteria.category c),
        Criteria.priority c, Criteria.tags c with
  | None, None, None, None, None, [] => true
  | _, _, _, _, _, _ => false
  end.

(** Disjunction of the six per-field tests. *)
Definition matches (c : Criteria.t) (item : Item) (i : Meta.t) : bool :=
  satisfied_str (Criteria.name c) (fun n => Py.contains n (name item))
  || satisfied_str (Criteria.module c)
       (fun m => Py.contains m (module_name item))
  || satisfied_str (Criteria.area c)
       (fun a => String.eqb (Py.casefold a) (Py.casefold (Meta.area i)))
  || satisfied_str (Criteria.category c)
       (fun k => String.eqb (Py.casefold k) (Py.casefold (Meta.category i)))
  || satisfied_priority (Criteria.priority c) (Meta.priority i)
  || satisfied_tags (Criteria.tags c) (Meta.tags i).

End SpecMatcher.

(** ** Marker validation *)

(** The values a marker's arguments take in this model. *)
Inductive pyval : Type :=
| PyNone
| PyInt (z : Z)
| PyStr (s : string)
| PyList (l : list pyval).

(** A [Mark]: positional arguments and keyword arguments (a [dict], keys
    unique, looked up by the first binding). *)
Record Mark : Type := mkMark {
  args : list pyval;
  kwargs : list (string * pyval)
}.

(** A test as the collection hands it to the hook, its marker not yet
    validated. *)
Record Collected : Type := mkCollected {
  c_oid : nat;
  c_name : string;
  c_module_name : string;
  c_marker : option Mark
}.

(** The exceptions of [validate_mark].  [schema] raises
    [SchemaMissingKeyError] for a required key that is absent and the base
    class [SchemaError] for a value its key's schema rejects. *)
Inductive Exn : Type :=
| AssertionError (msg : string)
| SchemaMissingKeyError (missing : list string)
| SchemaError (key : string).

(** How a call ends: it returns, the run is ended by [pytest.exit(msg)],
    or an exception leaves it. *)
Inductive Outcome (A : Type) : Type :=
| Return (a : A)
| Exit (msg : string)
| Raise (e : Exn).

Arguments Return {A} a.
Arguments Exit {A} msg.
Arguments Raise {A} e.

Module Schema.

Fixpoint get (k : string) (d : list (string * pyval)) : option pyval :=
  match d with
  | [] => None
  | (k', v) :: rest => if String.eqb k k' then Some v else get k rest
  end.

(** The value schemas: [str], [Or("Functional", ...)], [Or(0, 1, 2, 3)]
    and [[str]]. *)
Definition as_str (v : pyval) : option string :=
  match v with PyStr s => Some s | _ => None end.

Definition categories : list string :=
  ["Functional"; "Performance"; "Stress"; "Community"; "Longhaul"].

Definition as_category (v : pyval) : option string :=
  match v with
  | PyStr s => if Py.str_mem s categories then Some s else None
  | _ => None
  end.

Definition as_priority (v : pyval) : option Z :=
  match v with
  | PyInt z => if ((0 <=? z) && (z <=? 3))%Z then Some z else None
  | _ => None
  end.

Fixpoint as_strs (l : list pyval) : option (list string) :=
  match l with
  | [] => Some []
  | v :: rest =>
    match as_str v, as_strs rest with
    | Some s, Some ss => Some (s :: ss)
    | _, _ => None
    end
  end.

Definition as_str_list (v : pyval) : option (list string) :=
  match v with PyList l => as_strs l | _ => None end.

Definition is_some {A : Type} (o : option A) : bool :=
  match o with Some _ => true | None => false end.

(** Whether [lisa_schema] accepts the value [v] under the key [k]; any
    other key falls under [Optional(object): object]. *)
Definition accepts (k : string) (v : pyval) : bool :=
  if String.eqb k "platform" then is_some (as_str v)
  else if String.eqb k "category" then is_some (as_category v)
  else if String.eqb k "area" then is_some (as_str v)
  else if String.eqb k "priority" then is_some (as_priority v)
  else if String.eqb k "features" then is_some (as_str_list v)
  else if String.eqb k "tags" then is_some (as_str_list v)
  else true.

(** The first key of the data whose value is rejected. *)
Fixpoint first_rejected (d : list (string * pyval)) : option string :=
  match d with
  | [] => None
  | (k, v) :: rest => if accepts k v then first_rejected rest else Some k
  end.

(** The required keys, in the order the message lists them. *)
Definition required : list string :=
  ["area"; "category"; "platform"; "priority"].

Definition missing (d : list (string * pyval)) : list string :=
  filter (fun k => negb (is_some (get k d))) required.

Definition read {A : Type} (parse : pyval -> option A) (k : string)
  (d : list (string * pyval)) : option A :=
  match get k d with
  | Some v => parse v
  | None => None
  end.

Definition read_default (k : string) (d : list (string * pyval))
  : list string :=
  match read as_str_list k d with
  | Some l => l
  | None => []
  end.

(** [lisa_schema.validate(data)]: values are checked while the data is
    walked, required keys after it, then the defaults are filled in. *)
Definition validate (d : list (string * pyval)) : Outcome Meta.t :=
  match first_rejected d with
  | Some k => Raise (SchemaError k)
  | None =>
    match read as_str "platform" d, read as_category "category" d,
          read as_str "area" d, read as_priority "priority" d with
    | Some p, Some c, Some a, Some z =>
      Return (Meta.mk p c a z (read_default "features" d)
                (read_default "tags" d))
    | _, _, _, _ => Raise (SchemaMissingKeyError (missing d))
    end
  end.

End Schema.

(** [validate_mark(mark)]. *)
Definition validate_mark (mark : option Mark) : Outcome (option Meta.t) :=
  match mark with
  | None => Return None
  | Some m =>
    match args m with
    | _ :: _ =>
      Raise (AssertionError "LISA marker cannot have positional arguments!")
    | [] =>
      match Schema.validate (kwargs m) with
      | Return i => Return (Some i)
      | Exit msg => Exit msg
      | Raise e => Raise e
      end
    end
  end.

Definition quoted (s : string) : string := "'" ++ s ++ "'".

(** [str(e)] for the two exceptions the hook catches. *)
Definition exn_str (e : Exn) : string :=
  match e with
  | AssertionError msg => msg
  | SchemaMissingKeyError ks =>
    (match ks with [_] => "Missing key: " | _ => "Missing keys: " end)
    ++ String.concat ", " (map quoted ks)
  | SchemaError k => "Key '" ++ k ++ "' error:"
  end.

Definition exit_message (item_name : string) (e : Exn) : string :=
  "Error validating test '" ++ item_name ++ "' metadata: " ++ exn_str e.

(** The first loop of the hook: [except (SchemaMissingKeyError,
    AssertionError)] turns these two into [pytest.exit]; any other
    exception leaves the hook. *)
Fixpoint validate_items (items : list Collected) : Outcome (list Item) :=
  match items with
  | [] => Return []
  | it :: rest =>
    match validate_mark (c_marker it) with
    | Raise (SchemaError k) => Raise (SchemaError k)
    | Raise e => Exit (exit_message (c_name it) e)
    | Exit msg => Exit msg
    | Return i =>
      match validate_items rest with
      | Return r =>
        Return (mkItem (c_oid it) (c_name it) (c_module_name it) i :: r)
      | other => other
      end
    end
  end.

(** [pytest_collection_modifyitems(session, config, items)] with the
    playbook's criteria: the new content of [items], unless validation ends
    the run. *)
Definition pytest_collection_modifyitems (items : list Collected)
  (criteria : list Criteria.t) : Outcome (list Item) :=
  match validate_items items with
  | Return validated => Return (select_items validated criteria)
  | other => other
  end.

(** ** Scope of a node id *)

Module LISAScheduling.

Local Open Scope char_scope.

(** The class [\w] of a [str] pattern: the underscore and the alphanumeric
    code points, which below 256 are the digits, the letters [A-Z] and
    [a-z], and 170, 178-179, 181, 185-186, 188-190, 192-214, 216-246,
    248-255. *)
Definition is_word (c : ascii) : bool :=
  let n := nat_of_ascii c in
  ((48 <=? n) && (n <=? 57) || (65 <=? n) && (n <=? 90)
   || (97 <=? n) && (n <=? 122) || (n =? 95)
   || (n =? 170) || (178 <=? n) && (n <=? 179) || (n =? 181)
   || (185 <=? n) && (n <=? 186) || (188 <=? n) && (n <=? 190)
   || (192 <=? n) && (n <=? 214) || (216 <=? n) && (n <=? 246)
   || (248 <=? n) && (n <=? 255))%nat.

(** The longest run of word characters [s] starts with, and what is
    left. *)
Fixpoint word_run (s : string) : string * string :=
  match s with
  | String c rest =>
    if is_word c
    then let (w, after) := word_run rest in (String c w, after)
    else (EmptyString, s)
  | EmptyString => (EmptyString, EmptyString)
  end.

(** A match of [\[(\w+)\]] at the start of [s]: its group.  [\w+] is
    greedy, and no shorter run can be followed by a closing bracket, so
    the longest run decides. *)
Definition match_at (s : string) : option string :=
  match s with
  | String c rest =>
    if Ascii.eqb c "[" then
      match word_run rest with
      | (String d w, String e _) =>
        if Ascii.eqb e "]" then Some (String d w) else None
      | _ => None
      end
    else None
  | EmptyString => None
  end.

(** [regex.findall]: matches are sought from left to right; after a match
    the search goes on behind it ([skip] characters are still part of the
    last match), after a failure one character further. *)
Fixpoint findall_from (skip : nat) (s : string) : list string :=
  match s with
  | EmptyString => []
  | String _ rest =>
    match skip with
    | S k => findall_from k rest
    | O =>
      match match_at s with
      | Some tok => tok :: findall_from (S (String.length tok)) rest
      | None => findall_from 0 rest
      end
    end
  end.

Definition findall (s : string) : list string := findall_from 0 s.

(** Index of the last occurrence of [sep] in [s]. *)
Fixpoint rfind (sep s : string) : option nat :=
  match s with
  | EmptyString => None
  | String _ rest =>
    match rfind sep rest with
    | Some k => Some (S k)
    | None => if String.prefix sep s then Some 0%nat else None
    end
  end.

(** [LoadScopeScheduling._split_scope]: [nodeid.rsplit("::", 1)[0]]. *)
Definition super_split_scope (nodeid : string) : string :=
  match rfind "::" nodeid with
  | Some k => String.substring 0 k nodeid
  | None => nodeid
  end.

(** [LISAScheduling._split_scope]. *)
Definition _split_scope (nodeid : string) : string :=
  if Py.contains "[" nodeid
  then String.concat "/" (findall nodeid)
  else super_split_scope nodeid.

(** The brackets a parameterisation layer appends to a test's name, one
    pair per token. *)
Fixpoint bracketed (toks : list string) : string :=
  match toks with
  | [] => EmptyString
  | t :: rest => ("[" ++ t ++ "]" ++ bracketed rest)%string
  end.

(** A token [\w+] matches: not empty, word characters only. *)
Fixpoint all_word (s : string) : bool :=
  match s with
  | EmptyString => true
  | String c rest => is_word c && all_word rest
  end.

Definition word_token (t : string) : bool :=
  Py.truthy_str t && all_word t.

(** No bracket of either kind in [s]. *)
Fixpoint bracket_free (s : string) : bool :=
  match s with
  | EmptyString => true
  | String c rest =>
    negb (Ascii.eqb c "[") && negb (Ascii.eqb c "]") && bracket_free rest
  end.

End LISAScheduling.

(** ** Sample collections and playbooks *)

Module Scenario.

Definition meta (p : Z) (a : string) : Meta.t :=
  Meta.mk "azure" "Functional" a p [] [].

Definition test (n : nat) (nm : string) (p : Z) (a : string) : Item :=
  mkItem n nm "testsuites.sample" (Some (meta p a)).

Definition t0 : Item := test 0 "t0" 0 "net".
Definition t1 : Item := test 1 "t1" 1 "net".
Definition t2 : Item := test 2 "t2" 2 "net".
Definition t3 : Item := test 3 "t3" 1 "disk".
Definition x1 : Item := test 4 "x1" 2 "xdp".
Definition x2 : Item := test 5 "x2" 3 "XDP".

(** [- priority: p] with [times: n]. *)
Definition by_priority (p n : Z) : Criteria.t :=
  Criteria.mk None None None None (Some p) [] n false.

(** [- area: a] with [exclude: true]. *)
Definition without_area (a : string) : Criteria.t :=
  Criteria.mk None None (Some a) None None [] 1 true.

(** A marker whose category is none of the five. *)
Definition bad_category : Collected :=
  mkCollected 7 "test_bogus" "testsuites.sample"
    (Some (mkMark []
       [("platform", PyStr "azure"); ("category", PyStr "Bogus");
        ("area", PyStr "net"); ("priority", PyInt 1)])).

Definition no_area : Collected :=
  mkCollected 8 "test_no_area" "testsuites.sample"
    (Some (mkMark []
       [("platform", PyStr "azure"); ("category", PyStr "Stress");
        ("priority", PyInt 1)])).

Definition positional : Collected :=
  mkCollected 9 "test_positional" "testsuites.sample"
    (Some (mkMark [PyStr "azure"]
       [("platform", PyStr "azure"); ("category", PyStr "Stress");
        ("area", PyStr "net"); ("priority", PyInt 1)])).

Definition unmarked : Collected :=
  mkCollected 10 "test_flake8" "testsuites.sample" None.

End Scenario.

(** ** Collections that pass validation *)

(** The markers of a collection the hook accepts: absent, or without
    positional argument, every value accepted, no required key missing. *)
Definition acceptable (it : Collected) : bool :=
  match c_marker it with
  | None => true
  | Some m =>
    negb (Py.truthy_list (args m))
    && negb (Schema.is_some (Schema.first_rejected (kwargs m)))
    && negb (Py.truthy_list (Schema.missing (kwargs m)))
  end.

(** ** Strings on which [Py.casefold] is [str.casefold] *)





(** * Properties *)

Local Open Scope list_scope.

(** ** Criteria matcher *)

Lemma any_true_iff (l : list bool) : any l = true <-> In true l.
Proof.
  unfold any. rewrite existsb_exists. split.
  - intros [b [Hin Hb]]. now subst.
  - intros Hin. now exists true.
Qed.

Lemma and_str_spec (field : option string) (test : string -> bool) :
  and_str field test = SpecMatcher.satisfied_str field test.
Proof.
  destruct field as [[|c s]|]; reflexivity.
Qed.

Lemma and_tags_spec (field ts : list string) :
  and_tags field ts = SpecMatcher.satisfied_tags field ts.
Proof.
  destruct field; reflexivity.
Qed.

(** A priority other than 0 in the record is compared by equality. *)
Lemma and_priority_nonzero (z p : Z) :
  z <> 0%Z -> (and_priority (Some z) p = true <-> z = p).
Proof.
  intros Hz. unfold and_priority, Py.truthy_int.
  destruct (Z.eqb_spec z 0) as [E|_]; [contradiction|].
  simpl. apply Z.eqb_eq.
Qed.

Lemma and_priority_spec (field : option Z) (p : Z) :
  field <> Some 0%Z ->
  and_priority field p = SpecMatcher.satisfied_priority field p.
Proof.
  intros H. destruct field as [z|]; [|reflexivity].
  unfold and_priority, Py.truthy_int, SpecMatcher.satisfied_priority.
  destruct (Z.eqb_spec z 0) as [E|_]; [subst; contradiction|reflexivity].
Qed.

(** Apart from a priority of 0, the hook's [any([...])] is the disjunction
    of the per-field tests. *)
Lemma matches_spec (c : Criteria.t) (item : Item) (i : Meta.t) :
  Criteria.priority c <> Some 0%Z ->
  matches c item i = SpecMatcher.matches c item i.
Proof.
  intros H. unfold matches, any, operands, SpecMatcher.matches. simpl.
  rewrite !and_str_spec, and_tags_spec, (and_priority_spec _ _ H).
  rewrite orb_false_r, !orb_assoc. reflexivity.
Qed.

(** A record with no constrained field set matches no item. *)
Lemma all_unset_matches_nothing (c : Criteria.t) (item : Item) (i : Meta.t) :
  SpecMatcher.all_unset c = true -> matches c item i = false.
Proof.
  destruct c as [n m a k p t ti ex].
  unfold SpecMatcher.all_unset, matches, any, operands; simpl.
  destruct n as [[|? ?]|], m as [[|? ?]|], a as [[|? ?]|], k as [[|? ?]|],
    p, t; simpl; intros H; try discriminate H; reflexivity.
Qed.

(** C1 (failing input): a record whose priority is 0 is not matched through
    its priority by any item, not even one of priority 0, although equality
    of the two priorities holds; the operand [c["priority"] and ...] is
    falsy for 0. *)
Theorem priority_zero_matches_nothing :
  (forall (n : Z) (ex : bool) (item : Item) (i : Meta.t),
      matches (Criteria.mk None None None None (Some 0%Z) [] n ex) item i
      = false)
  /\ and_priority (Some 0%Z) (Meta.priority (Scenario.meta 0 "net")) = false
  /\ SpecMatcher.satisfied_priority (Some 0%Z)
       (Meta.priority (Scenario.meta 0 "net")) = true.
Proof.
  repeat split.
Qed.

(** C2 (failing input): for the record [- priority: 0] and an item of
    priority 0 the priority field is set and satisfied, so the disjunction
    of the per-field tests holds, and the hook's matcher says no. *)
Theorem priority_zero_breaks_disjunction :
  SpecMatcher.matches (Scenario.by_priority 0 1) Scenario.t0
    (Scenario.meta 0 "net") = true
  /\ matches (Scenario.by_priority 0 1) Scenario.t0 (Scenario.meta 0 "net")
     = false.
Proof.
  split; reflexivity.
Qed.

(** ** Selection engine: counting *)

Lemma count_app (x : Item) (l1 l2 : list Item) :
  count x (l1 ++ l2) = count x l1 + count x l2.
Proof. apply count_occ_app. Qed.

Lemma count_repeat_same (x : Item) (n : nat) : count x (repeat x n) = n.
Proof. now apply count_occ_repeat_eq. Qed.

Lemma count_repeat_other (x y : Item) (n : nat) :
  x <> y -> count x (repeat y n) = 0.
Proof. apply count_occ_repeat_neq. Qed.

Lemma item_in_true (x : Item) (l : list Item) : item_in x l = true <-> In x l.
Proof.
  unfold item_in. destruct (in_dec Item_eq_dec x l); split; intros H;
    try reflexivity; try assumption; try discriminate; contradiction.
Qed.

Lemma item_in_false (x : Item) (l : list Item) :
  item_in x l = false <-> ~ In x l.
Proof.
  unfold item_in. destruct (in_dec Item_eq_dec x l); split; intros H;
    try reflexivity; try assumption; try discriminate; contradiction.
Qed.

(** What [select] does to the included list when [exclude] is off. *)
Lemma select_included (st : State) (item : Item) (t : Z) :
  included (select st item t false)
  = included st
    ++ repeat item
         (Z.to_nat (Z.max 0 (t - Z.of_nat (count item (included st))))).
Proof.
  simpl. f_equal. f_equal. lia.
Qed.

Lemma select_count_self (st : State) (item : Item) (t : Z) :
  count item (included (select st item t false))
  = Nat.max (count item (included st)) (Z.to_nat t).
Proof.
  simpl. rewrite count_app, count_repeat_same. lia.
Qed.

Lemma select_count_other (st : State) (item j : Item) (t : Z) (ex : bool) :
  j <> item ->
  count j (included (select st item t ex)) = count j (included st).
Proof.
  intros Hne. destruct ex; simpl; [reflexivity|].
  rewrite count_app, count_repeat_other by assumption. lia.
Qed.

Lemma select_exclude_included (st : State) (item : Item) (t : Z) :
  included (select st item t true) = included st.
Proof. reflexivity. Qed.

Lemma select_count_mono (st : State) (item j : Item) (t : Z) (ex : bool) :
  count j (included st) <= count j (included (select st item t ex)).
Proof.
  destruct ex; simpl; [lia|]. rewrite count_app. lia.
Qed.

Lemma visit_count_mono (c : Criteria.t) (st : State) (item j : Item) :
  count j (included st) <= count j (included (visit c st item)).
Proof.
  unfold visit. destruct (item_matches c item); [|lia].
  apply select_count_mono.
Qed.

Lemma visit_count_other (c : Criteria.t) (st : State) (item j : Item) :
  j <> item -> count j (included (visit c st item)) = count j (included st).
Proof.
  intros Hne. unfold visit. destruct (item_matches c item); [|reflexivity].
  now apply select_count_other.
Qed.

Lemma apply_criterion_count_mono (c : Criteria.t) (items : list Item)
  (st : State) (j : Item) :
  count j (included st) <= count j (included (apply_criterion items st c)).
Proof.
  unfold apply_criterion. revert st.
  induction items as [|a items IH]; intros st; simpl; [lia|].
  etransitivity; [apply (visit_count_mono c st a j)|apply IH].
Qed.

Lemma run_criteria_count_mono (items : list Item) (criteria : list Criteria.t)
  (st : State) (j : Item) :
  count j (included st) <= count j (included (run_criteria items criteria st)).
Proof.
  unfold run_criteria. revert st.
  induction criteria as [|c cs IH]; intros st; simpl; [lia|].
  etransitivity; [apply (apply_criterion_count_mono c items st j)|apply IH].
Qed.

(** A record that does not include [i] (it has [exclude] set, or does not
    match [i]) leaves the count of [i] alone. *)
Lemma apply_criterion_count_skip (c : Criteria.t) (items : list Item)
  (st : State) (i : Item) :
  negb (Criteria.exclude c) && item_matches c i = false ->
  count i (included (apply_criterion items st c)) = count i (included st).
Proof.
  intros Hskip. unfold apply_criterion. revert st.
  induction items as [|a items IH]; intros st; simpl; [reflexivity|].
  rewrite IH. destruct (Item_eq_dec i a) as [<-|Hne].
  - unfold visit. destruct (item_matches c i); [|reflexivity].
    destruct (Criteria.exclude c); [reflexivity|discriminate Hskip].
  - now apply visit_count_other.
Qed.

(** A non-exclude record that matches [i] tops the count of [i] up to its
    times, once [i] has been met in the collection. *)
Lemma apply_criterion_count_top_up (c : Criteria.t) (items : list Item)
  (st : State) (i : Item) :
  Criteria.exclude c = false -> item_matches c i = true ->
  count i (included (apply_criterion items st c))
  = if item_in i items
    then Nat.max (count i (included st)) (Z.to_nat (Criteria.times c))
    else count i (included st).
Proof.
  intros Hex Hm. unfold apply_criterion. revert st.
  induction items as [|a items IH]; intros st; simpl fold_left.
  - reflexivity.
  - rewrite IH. destruct (Item_eq_dec i a) as [<-|Hne].
    + assert (Hin : item_in i (i :: items) = true)
        by (apply item_in_true; now left).
      rewrite Hin. unfold visit. rewrite Hm, Hex, select_count_self.
      destruct (item_in i items); lia.
    + rewrite (visit_count_other c st a i Hne).
      destruct (item_in i items) eqn:E.
      * assert (Hin : item_in i (a :: items) = true)
          by (apply item_in_true; right; now apply item_in_true).
        now rewrite Hin.
      * assert (Hin : item_in i (a :: items) = false).
        { apply item_in_false. intros [H|H]; [now apply Hne|].
          now apply item_in_false in E. }
        now rewrite Hin.
Qed.

Lemma run_criteria_count (items : list Item) (criteria : list Criteria.t)
  (st : State) (i : Item) :
  In i items ->
  Z.of_nat (count i (included (run_criteria items criteria st)))
  = fold_left Z.max (matching_times criteria i)
      (Z.of_nat (count i (included st))).
Proof.
  intros Hin. unfold run_criteria, matching_times. revert st.
  induction criteria as [|c cs IH]; intros st; simpl; [reflexivity|].
  rewrite IH.
  destruct (negb (Criteria.exclude c) && item_matches c i) eqn:E; simpl.
  - apply andb_true_iff in E as [Hex Hm]. apply negb_true_iff in Hex.
    rewrite (apply_criterion_count_top_up c items st i Hex Hm).
    apply item_in_true in Hin. rewrite Hin. f_equal. lia.
  - now rewrite apply_criterion_count_skip.
Qed.

Lemma fold_max_from (ts : list Z) (a b : Z) :
  fold_left Z.max ts (Z.max a b) = Z.max a (fold_left Z.max ts b).
Proof.
  revert b. induction ts as [|t ts IH]; intros b; simpl; [reflexivity|].
  rewrite <- IH. f_equal. lia.
Qed.

Lemma max_times0_clamps (ts : list Z) (m : Z) :
  max_times ts = Some m -> max_times0 ts = Z.max 0 m.
Proof.
  destruct ts as [|t ts]; simpl; [discriminate|].
  intros [= <-]. unfold max_times0. simpl.
  now rewrite fold_max_from.
Qed.

(** C3 (as amended): for an item of the collection, the number of its
    occurrences in the included list after all criteria is the largest
    times value among the non-exclude records that match it, clamped at
    zero; each such record tops the running count up to its own times
    value, and appends nothing when the count has reached it. *)
Theorem included_count_is_clamped_max (items : list Item)
  (criteria : list Criteria.t) (i : Item) :
  In i items ->
  Z.of_nat (count i (included (run_criteria items criteria init)))
  = max_times0 (matching_times criteria i)
  /\ (forall m, max_times (matching_times criteria i) = Some m ->
        Z.of_nat (count i (included (run_criteria items criteria init)))
        = Z.max 0 m)
  /\ (forall (c : Criteria.t) (st : State),
        Criteria.exclude c = false -> item_matches c i = true ->
        count i (included (apply_criterion items st c))
        = Nat.max (count i (included st)) (Z.to_nat (Criteria.times c))).
Proof.
  intros Hin.
  assert (H0 : Z.of_nat (count i (included (run_criteria items criteria init)))
               = max_times0 (matching_times criteria i)).
  { rewrite (run_criteria_count items criteria init i Hin). reflexivity. }
  split; [exact H0|]. split.
  - intros m Hm. rewrite H0. now apply max_times0_clamps.
  - intros c st Hex Hm.
    rewrite (apply_criterion_count_top_up c items st i Hex Hm).
    apply item_in_true in Hin. now rewrite Hin.
Qed.

Lemma included_count_is_clamped_max_witness :
  In Scenario.t1 [Scenario.t1; Scenario.t2; Scenario.t3]
  /\ Z.of_nat
       (count Scenario.t1
          (included
             (run_criteria [Scenario.t1; Scenario.t2; Scenario.t3]
                [Scenario.by_priority 1 2; Scenario.by_priority 1 5;
                 Scenario.by_priority 1 3] init)))
     = 5%Z.
Proof.
  split; [now left|].
  apply (included_count_is_clamped_max
           [Scenario.t1; Scenario.t2; Scenario.t3]
           [Scenario.by_priority 1 2; Scenario.by_priority 1 5;
            Scenario.by_priority 1 3] Scenario.t1).
  now left.
Defined.

(** C3 (counterexample): one matching non-exclude record with times -1;
    the largest times value is -1, the item is included 0 times. *)
Lemma negative_times_count_is_not_max :
  max_times (matching_times [Scenario.by_priority 1 (-1)] Scenario.t1)
  = Some (-1)%Z
  /\ Z.of_nat
       (count Scenario.t1
          (included
             (run_criteria [Scenario.t1] [Scenario.by_priority 1 (-1)] init)))
     <> (-1)%Z.
Proof.
  split; [reflexivity|]. vm_compute. discriminate.
Qed.

(** ** Selection engine: membership *)

Lemma visit_excluded (c : Criteria.t) (st : State) (item j : Item) :
  In j (excluded (visit c st item))
  <-> In j (excluded st)
      \/ (j = item /\ Criteria.exclude c && item_matches c item = true).
Proof.
  unfold visit, select.
  destruct (item_matches c item), (Criteria.exclude c); simpl;
    rewrite ?in_app_iff; simpl; intuition (auto; discriminate).
Qed.

Lemma apply_criterion_excluded (c : Criteria.t) (items : list Item)
  (st : State) (j : Item) :
  In j (excluded (apply_criterion items st c))
  <-> In j (excluded st)
      \/ (In j items /\ Criteria.exclude c && item_matches c j = true).
Proof.
  unfold apply_criterion. revert st.
  induction items as [|a items IH]; intros st; simpl.
  - tauto.
  - rewrite IH, visit_excluded. split.
    + intros [[H|[-> H]]|[H1 H2]]; auto.
    + intros [H|[[<-|H1] H2]]; auto.
Qed.

Lemma run_criteria_excluded (items : list Item) (criteria : list Criteria.t)
  (st : State) (j : Item) :
  In j (excluded (run_criteria items criteria st))
  <-> In j (excluded st) \/ (In j items /\ is_excluded criteria j = true).
Proof.
  unfold run_criteria, is_excluded. revert st.
  induction criteria as [|c cs IH]; intros st; simpl.
  - intuition discriminate.
  - rewrite IH, apply_criterion_excluded, orb_true_iff. tauto.
Qed.

Lemma visit_included (c : Criteria.t) (st : State) (item j : Item) :
  In j (included (visit c st item)) ->
  In j (included st)
  \/ (j = item /\ Criteria.exclude c = false /\ item_matches c item = true).
Proof.
  unfold visit, select.
  destruct (item_matches c item), (Criteria.exclude c); simpl; auto.
  rewrite in_app_iff. intros [H|H]; auto.
  apply repeat_spec in H. auto.
Qed.

Lemma apply_criterion_included (c : Criteria.t) (items : list Item)
  (st : State) (j : Item) :
  In j (included (apply_criterion items st c)) ->
  In j (included st)
  \/ (In j items /\ Criteria.exclude c = false /\ item_matches c j = true).
Proof.
  unfold apply_criterion. revert st.
  induction items as [|a items IH]; intros st; simpl; auto.
  intros H. apply IH in H as [H|[H1 H2]]; [|tauto].
  apply visit_included in H as [H|[-> H]]; auto.
Qed.

Lemma run_criteria_included (items : list Item) (criteria : list Criteria.t)
  (st : State) (j : Item) :
  In j (included (run_criteria items criteria st)) ->
  In j (included st)
  \/ (In j items
      /\ exists c, In c criteria /\ Criteria.exclude c = false
                   /\ item_matches c j = true).
Proof.
  unfold run_criteria. revert st.
  induction criteria as [|c cs IH]; intros st; simpl; auto.
  intros H. apply IH in H as [H|[H1 [c' [Hc H2]]]].
  - apply apply_criterion_included in H as [H|[H1 H2]]; auto.
    right. split; [assumption|]. exists c. auto.
  - right. split; [assumption|]. exists c'. auto.
Qed.

Lemma fallback_in_items (items : list Item) (criteria : list Criteria.t)
  (j : Item) :
  In j (fallback items (run_criteria items criteria init)) -> In j items.
Proof.
  unfold fallback.
  destruct (included (run_criteria items criteria init)) as [|a l] eqn:E;
    [auto|].
  intros H. rewrite <- E in H.
  apply run_criteria_included in H as [H|[H _]]; [destruct H|assumption].
Qed.

(** The final list keeps of the included list what matches no exclude
    record. *)
Lemma select_items_filter (items : list Item) (criteria : list Criteria.t) :
  select_items items criteria
  = filter (fun j => negb (is_excluded criteria j))
      (fallback items (run_criteria items criteria init)).
Proof.
  unfold select_items, drop_excluded. apply filter_ext_in.
  intros j Hj. apply fallback_in_items in Hj. f_equal.
  destruct (is_excluded criteria j) eqn:E.
  - apply item_in_true, run_criteria_excluded. auto.
  - apply item_in_false. rewrite run_criteria_excluded.
    intros [H|[_ H]]; [destruct H|congruence].
Qed.

(** Filtering keeps every occurrence of an item the test accepts. *)
Lemma count_filter_keep (f : Item -> bool) (l : list Item) (j : Item) :
  f j = true -> count j (filter f l) = count j l.
Proof.
  intros Hj. unfold count.
  induction l as [|a l IH]; [reflexivity|].
  cbn [filter]. destruct (Item_eq_dec a j) as [->|Hne].
  - rewrite Hj, !count_occ_cons_eq by reflexivity. now rewrite IH.
  - rewrite (count_occ_cons_neq _ l Hne). destruct (f a); [|exact IH].
    now rewrite count_occ_cons_neq.
Qed.

(** C4: an item that matches a record with [exclude] set is not in the
    final list, whatever was included and in whichever order the records
    come, fallback or not; the final list is the included list (after the
    fallback) with exactly these items removed, so every other occurrence
    stays, in the included list's order. *)
Theorem exclusion_always_wins (items : list Item)
  (criteria : list Criteria.t) :
  (forall i, is_excluded criteria i = true ->
             ~ In i (select_items items criteria))
  /\ select_items items criteria
     = filter (fun j => negb (is_excluded criteria j))
         (fallback items (run_criteria items criteria init))
  /\ (forall j, is_excluded criteria j = false ->
        count j (select_items items criteria)
        = count j (fallback items (run_criteria items criteria init))).
Proof.
  rewrite select_items_filter. split; [|split].
  - intros i Hex Hin. apply filter_In in Hin as [_ H].
    rewrite Hex in H. discriminate H.
  - reflexivity.
  - intros j Hj. apply count_filter_keep. now rewrite Hj.
Qed.

Lemma exclusion_always_wins_witness :
  is_excluded [Scenario.by_priority 1 3; Scenario.without_area "net"]
    Scenario.t1 = true
  /\ ~ In Scenario.t1
       (select_items [Scenario.t1; Scenario.t2; Scenario.t3]
          [Scenario.by_priority 1 3; Scenario.without_area "net"]).
Proof.
  split; [reflexivity|].
  apply (proj1 (exclusion_always_wins
                  [Scenario.t1; Scenario.t2; Scenario.t3]
                  [Scenario.by_priority 1 3; Scenario.without_area "net"])).
  reflexivity.
Defined.

(** ** Selection engine: fallback *)

Lemma apply_criterion_exclude_included (c : Criteria.t) (items : list Item)
  (st : State) :
  Criteria.exclude c = true ->
  included (apply_criterion items st c) = included st.
Proof.
  intros Hex. unfold apply_criterion. revert st.
  induction items as [|a items IH]; intros st; simpl; [reflexivity|].
  rewrite IH. unfold visit. destruct (item_matches c a); [|reflexivity].
  now rewrite Hex.
Qed.

Lemma run_criteria_all_exclude (items : list Item)
  (criteria : list Criteria.t) (st : State) :
  forallb Criteria.exclude criteria = true ->
  included (run_criteria items criteria st) = included st.
Proof.
  unfold run_criteria. revert st.
  induction criteria as [|c cs IH]; intros st; simpl; [reflexivity|].
  intros H. apply andb_true_iff in H as [Hc Hcs].
  rewrite (IH _ Hcs). now apply apply_criterion_exclude_included.
Qed.

Lemma is_excluded_all_exclude (criteria : list Criteria.t) (j : Item) :
  forallb Criteria.exclude criteria = true ->
  is_excluded criteria j = existsb (fun c => item_matches c j) criteria.
Proof.
  unfold is_excluded.
  induction criteria as [|c cs IH]; simpl; [reflexivity|].
  intros H. apply andb_true_iff in H as [Hc Hcs].
  now rewrite Hc, (IH Hcs).
Qed.

(** C5: when no item was included by the criteria, the included list
    becomes the collection itself and the exclusions are applied to it; so
    with exclude records only the result is the collection without the
    items they match, in its order, and with no criteria at all it is the
    collection.  [select_items] is a total function: it has no error
    result. *)
Theorem fallback_runs_everything (items : list Item)
  (criteria : list Criteria.t) :
  (included (run_criteria items criteria init) = [] ->
   fallback items (run_criteria items criteria init) = items
   /\ select_items items criteria
      = filter (fun j => negb (is_excluded criteria j)) items)
  /\ (forallb Criteria.exclude criteria = true ->
      select_items items criteria
      = filter (fun j => negb (existsb (fun c => item_matches c j) criteria))
          items)
  /\ select_items items [] = items.
Proof.
  assert (Hempty : included (run_criteria items criteria init) = [] ->
                   fallback items (run_criteria items criteria init) = items).
  { intros H. unfold fallback. now rewrite H. }
  split; [|split].
  - intros H. split; [now apply Hempty|].
    rewrite select_items_filter. now rewrite (Hempty H).
  - intros Hall. rewrite select_items_filter.
    rewrite Hempty by now rewrite run_criteria_all_exclude.
    apply filter_ext. intros j. now rewrite is_excluded_all_exclude.
  - rewrite select_items_filter. simpl. apply filter_true.
Qed.

Lemma fallback_runs_everything_witness :
  forallb Criteria.exclude [Scenario.without_area "xdp"] = true
  /\ select_items
       [Scenario.x1; Scenario.t1; Scenario.t2; Scenario.x2; Scenario.t3]
       [Scenario.without_area "xdp"]
     = [Scenario.t1; Scenario.t2; Scenario.t3].
Proof.
  split; [reflexivity|].
  rewrite (proj1 (proj2 (fallback_runs_everything
             [Scenario.x1; Scenario.t1; Scenario.t2; Scenario.x2; Scenario.t3]
             [Scenario.without_area "xdp"])) eq_refl).
  reflexivity.
Defined.

(** ** Selection engine: the priority scenario *)

Lemma by_priority_matches (p n : Z) (item : Item) (i : Meta.t) :
  marker item = Some i ->
  item_matches (Scenario.by_priority p n) item
  = negb (p =? 0)%Z && (p =? Meta.priority i)%Z.
Proof.
  intros Hm. unfold item_matches. rewrite Hm.
  unfold matches, any, operands. simpl.
  now rewrite !orb_false_r.
Qed.

Lemma drop_nothing (l : list Item) : drop_excluded l [] = l.
Proof.
  unfold drop_excluded. apply forallb_filter_id.
  apply forallb_forall. reflexivity.
Qed.

(** C6: for a collection [t1; t2; t3] of priorities 1, 2, 1 and the single
    record [priority: 1, times: 2] the hook selects [t1; t1; t3; t3]: the
    matching items twice each, in collection order; [t2] is not selected,
    and the included list is not empty, so the fallback stays out. *)
Theorem priority_one_twice (t1 t2 t3 : Item) (m1 m2 m3 : Meta.t) :
  marker t1 = Some m1 -> marker t2 = Some m2 -> marker t3 = Some m3 ->
  Meta.priority m1 = 1%Z -> Meta.priority m2 = 2%Z ->
  Meta.priority m3 = 1%Z ->
  t1 <> t3 ->
  select_items [t1; t2; t3] [Scenario.by_priority 1 2] = [t1; t1; t3; t3]
  /\ included (run_criteria [t1; t2; t3] [Scenario.by_priority 1 2] init)
     = [t1; t1; t3; t3]
  /\ ~ In t2 (select_items [t1; t2; t3] [Scenario.by_priority 1 2]).
Proof.
  intros H1 H2 H3 P1 P2 P3 Hne.
  assert (M1 := by_priority_matches 1 2 t1 m1 H1).
  assert (M2 := by_priority_matches 1 2 t2 m2 H2).
  assert (M3 := by_priority_matches 1 2 t3 m3 H3).
  rewrite P1 in M1. rewrite P2 in M2. rewrite P3 in M3.
  simpl in M1, M2, M3.
  assert (Hrun : run_criteria [t1; t2; t3] [Scenario.by_priority 1 2] init
                 = mkState [t1; t1; t3; t3] []).
  { unfold run_criteria, apply_criterion. simpl fold_left.
    unfold visit at 3. rewrite M1.
    unfold visit at 2. rewrite M2.
    unfold visit. rewrite M3.
    unfold select, count. simpl.
    destruct (Item_eq_dec t1 t3) as [E|_]; [contradiction|].
    reflexivity. }
  assert (Hsel : select_items [t1; t2; t3] [Scenario.by_priority 1 2]
                 = [t1; t1; t3; t3]).
  { unfold select_items. rewrite Hrun. unfold fallback. simpl included.
    simpl excluded. apply drop_nothing. }
  split; [exact Hsel|]. split; [now rewrite Hrun|].
  rewrite Hsel. simpl.
  assert (t1 <> t2) by (intros ->; congruence).
  assert (t3 <> t2) by (intros ->; congruence).
  tauto.
Qed.

Lemma priority_one_twice_witness :
  select_items [Scenario.t1; Scenario.t2; Scenario.t3]
    [Scenario.by_priority 1 2]
  = [Scenario.t1; Scenario.t1; Scenario.t3; Scenario.t3].
Proof.
  apply (priority_one_twice Scenario.t1 Scenario.t2 Scenario.t3
           (Scenario.meta 1 "net") (Scenario.meta 2 "net")
           (Scenario.meta 1 "disk"));
    try reflexivity.
  discriminate.
Defined.

(** ** Selection engine: records that include nothing *)

Lemma select_nonpositive (st : State) (item : Item) (t : Z) :
  (t <= 0)%Z -> included (select st item t false) = included st.
Proof.
  intros Ht. simpl.
  replace (Z.to_nat (t - Z.of_nat (count item (included st)))) with 0%nat
    by lia.
  apply app_nil_r.
Qed.

Lemma apply_criterion_idle (c : Criteria.t) (items : list Item) (st : State) :
  (forall i, In i items -> item_matches c i = true ->
             Criteria.exclude c = false /\ (Criteria.times c <= 0)%Z) ->
  apply_criterion items st c = st.
Proof.
  unfold apply_criterion. revert st.
  induction items as [|a items IH]; intros st H; simpl; [reflexivity|].
  assert (Hv : visit c st a = st).
  { unfold visit. destruct (item_matches c a) eqn:E; [|reflexivity].
    destruct (H a (or_introl eq_refl) E) as [Hex Ht].
    rewrite Hex. destruct st as [inc exc].
    unfold select. simpl. f_equal.
    replace (Z.to_nat (Criteria.times c - Z.of_nat (count a inc))) with 0%nat
      by lia.
    apply app_nil_r. }
  rewrite Hv. apply IH. intros i Hi. apply H. now right.
Qed.

Lemma run_criteria_idle (items : list Item) (criteria : list Criteria.t)
  (st : State) :
  (forall c, In c criteria -> forall i, In i items ->
             item_matches c i = true ->
             Criteria.exclude c = false /\ (Criteria.times c <= 0)%Z) ->
  run_criteria items criteria st = st.
Proof.
  unfold run_criteria. revert st.
  induction criteria as [|c cs IH]; intros st H; simpl; [reflexivity|].
  rewrite apply_criterion_idle by (apply H; now left).
  apply IH. intros c' Hc'. apply H. now right.
Qed.

(** C10: with [exclude] off, [select] appends max(0, times - count) copies
    of the item and removes nothing, so no step of the processing lowers
    the count of any item; a times value of 0 or less appends nothing; and
    when the only records that match anything are non-exclude records with
    such a times value, the included list stays empty and the hook selects
    the whole collection as it is. *)
Theorem select_only_tops_up (items : list Item) (criteria : list Criteria.t) :
  (forall st item t,
      included (select st item t false)
      = included st
        ++ repeat item
             (Z.to_nat (Z.max 0 (t - Z.of_nat (count item (included st)))))
      /\ excluded (select st item t false) = excluded st)
  /\ (forall st c item j,
         count j (included st) <= count j (included (visit c st item)))
  /\ (forall st j,
         count j (included st)
         <= count j (included (run_criteria items criteria st)))
  /\ (forall st item t,
         (t <= 0)%Z -> included (select st item t false) = included st)
  /\ ((forall c, In c criteria -> forall i, In i items ->
          item_matches c i = true ->
          Criteria.exclude c = false /\ (Criteria.times c <= 0)%Z) ->
      included (run_criteria items criteria init) = []
      /\ select_items items criteria = items).
Proof.
  split; [|split; [|split; [|split]]].
  - intros st item t. split; [apply select_included|reflexivity].
  - intros st c item j. apply visit_count_mono.
  - intros st j. apply run_criteria_count_mono.
  - intros st item t. apply select_nonpositive.
  - intros H. unfold select_items.
    rewrite (run_criteria_idle items criteria init H).
    split; [reflexivity|]. apply drop_nothing.
Qed.

Lemma select_only_tops_up_witness :
  select_items [Scenario.t1; Scenario.t2; Scenario.t3]
    [Scenario.by_priority 1 0; Scenario.by_priority 2 (-3)]
  = [Scenario.t1; Scenario.t2; Scenario.t3].
Proof.
  apply (proj2 (proj2 (proj2 (proj2 (select_only_tops_up
           [Scenario.t1; Scenario.t2; Scenario.t3]
           [Scenario.by_priority 1 0; Scenario.by_priority 2 (-3)]))))).
  intros c [<-|[<-|[]]] i Hi Hm; split; simpl; try reflexivity; lia.
Defined.

(** ** Marker validation *)

(** An item without marker passes. *)
Lemma unmarked_passes : validate_mark None = Return None.
Proof. reflexivity. Qed.

Lemma first_rejected_none (d : list (string * pyval)) (k : string)
  (v : pyval) :
  Schema.first_rejected d = None -> Schema.get k d = Some v ->
  Schema.accepts k v = true.
Proof.
  induction d as [|[k' v'] d IH]; simpl; [discriminate|].
  destruct (Schema.accepts k' v') eqn:E; [|discriminate].
  intros Hd. destruct (String.eqb_spec k k') as [->|_].
  - intros [= <-]. exact E.
  - now apply IH.
Qed.

(** A marker whose present values are accepted and whose required keys are
    all there passes the schema. *)
Lemma complete_marker_validates (d : list (string * pyval)) :
  Schema.first_rejected d = None -> Schema.missing d = [] ->
  exists i, Schema.validate d = Return i.
Proof.
  intros Hrej Hmiss. unfold Schema.validate, Schema.read. rewrite Hrej.
  unfold Schema.missing, Schema.required in Hmiss. simpl in Hmiss.
  destruct (Schema.get "area" d) as [va|] eqn:Ea; [|discriminate Hmiss].
  destruct (Schema.get "category" d) as [vc|] eqn:Ec; [|discriminate Hmiss].
  destruct (Schema.get "platform" d) as [vp|] eqn:Ep; [|discriminate Hmiss].
  destruct (Schema.get "priority" d) as [vz|] eqn:Ez; [|discriminate Hmiss].
  pose proof (first_rejected_none d "area" va Hrej Ea) as Ha.
  pose proof (first_rejected_none d "category" vc Hrej Ec) as Hc.
  pose proof (first_rejected_none d "platform" vp Hrej Ep) as Hp.
  pose proof (first_rejected_none d "priority" vz Hrej Ez) as Hz.
  unfold Schema.accepts in Ha, Hc, Hp, Hz. simpl in Ha, Hc, Hp, Hz.
  destruct (Schema.as_str vp); [|discriminate Hp].
  destruct (Schema.as_category vc); [|discriminate Hc].
  destruct (Schema.as_str va); [|discriminate Ha].
  destruct (Schema.as_priority vz); [|discriminate Hz].
  eexists. reflexivity.
Qed.

(** A marker whose present values are accepted and which lacks a required
    key raises [SchemaMissingKeyError] with the keys it lacks. *)
Lemma incomplete_marker_raises (d : list (string * pyval)) :
  Schema.first_rejected d = None -> Schema.missing d <> [] ->
  Schema.validate d = Raise (SchemaMissingKeyError (Schema.missing d)).
Proof.
  intros Hrej Hmiss. unfold Schema.validate, Schema.read. rewrite Hrej.
  destruct (Schema.get "platform" d) as [vp|] eqn:Ep;
    [destruct (Schema.as_str vp)|]; try reflexivity.
  destruct (Schema.get "category" d) as [vc|] eqn:Ec;
    [destruct (Schema.as_category vc)|]; try reflexivity.
  destruct (Schema.get "area" d) as [va|] eqn:Ea;
    [destruct (Schema.as_str va)|]; try reflexivity.
  destruct (Schema.get "priority" d) as [vz|] eqn:Ez;
    [destruct (Schema.as_priority vz)|]; try reflexivity.
  exfalso. apply Hmiss. unfold Schema.missing, Schema.required. simpl.
  now rewrite Ea, Ec, Ep, Ez.
Qed.

(** A value its key's schema rejects raises the base [SchemaError]. *)
Lemma rejected_value_raises (d : list (string * pyval)) (k : string) :
  Schema.first_rejected d = Some k ->
  Schema.validate d = Raise (SchemaError k).
Proof.
  intros H. unfold Schema.validate. now rewrite H.
Qed.

(** The offending item after a prefix of items that validate: positional
    arguments and a missing key end the run with a message that names the
    item and the cause; a rejected value leaves the hook as [SchemaError]. *)
Lemma validate_items_app (pre : list Collected) (v : list Item)
  (it : Collected) (rest : list Collected) :
  validate_items pre = Return v ->
  validate_items (pre ++ it :: rest)
  = match validate_mark (c_marker it) with
    | Raise (SchemaError k) => Raise (SchemaError k)
    | Raise e => Exit (exit_message (c_name it) e)
    | Exit msg => Exit msg
    | Return i =>
      match validate_items rest with
      | Return r =>
        Return (v ++ mkItem (c_oid it) (c_name it) (c_module_name it) i :: r)
      | other => other
      end
    end.
Proof.
  revert v. induction pre as [|a pre IH]; intros v; simpl.
  - intros [= <-]. reflexivity.
  - destruct (validate_mark (c_marker a)) as [i|msg|[m|ks|k]];
      try discriminate.
    destruct (validate_items pre) as [r|msg|e] eqn:E; try discriminate.
    intros [= <-]. rewrite (IH r eq_refl).
    destruct (validate_mark (c_marker it)) as [i'|msg|[m|ks|k]];
      try reflexivity.
    destruct (validate_items rest); reflexivity.
Qed.

(** X5: positional arguments on the marker of the first item that does
    not validate end the run with [pytest.exit] and a message that names
    the item, whatever its keyword arguments. *)
Lemma positional_arguments_exit (pre : list Collected) (v : list Item)
  (it : Collected) (rest : list Collected) (m : Mark)
  (criteria : list Criteria.t) :
  validate_items pre = Return v -> c_marker it = Some m -> args m <> [] ->
  pytest_collection_modifyitems (pre ++ it :: rest) criteria
  = Exit ("Error validating test '" ++ c_name it ++ "' metadata: "
          ++ "LISA marker cannot have positional arguments!")%string.
Proof.
  intros Hpre Hm Hargs. unfold pytest_collection_modifyitems.
  rewrite (validate_items_app pre v it rest Hpre), Hm. simpl.
  destruct (args m); [contradiction|reflexivity].
Qed.

(** X6: when the first item that does not validate lacks a required key,
    the run ends with [pytest.exit] and a message that names the item and
    the keys it lacks. *)
Lemma missing_key_exit (pre : list Collected) (v : list Item)
  (it : Collected) (rest : list Collected) (m : Mark)
  (criteria : list Criteria.t) :
  validate_items pre = Return v -> c_marker it = Some m -> args m = [] ->
  Schema.first_rejected (kwargs m) = None ->
  Schema.missing (kwargs m) <> [] ->
  pytest_collection_modifyitems (pre ++ it :: rest) criteria
  = Exit ("Error validating test '" ++ c_name it ++ "' metadata: "
          ++ exn_str (SchemaMissingKeyError (Schema.missing (kwargs m))))
         %string.
Proof.
  intros Hpre Hm Hargs Hrej Hmiss. unfold pytest_collection_modifyitems.
  rewrite (validate_items_app pre v it rest Hpre), Hm. simpl. rewrite Hargs.
  now rewrite (incomplete_marker_raises _ Hrej Hmiss).
Qed.

Lemma rejected_value_escapes (pre : list Collected) (v : list Item)
  (it : Collected) (rest : list Collected) (m : Mark) (k : string)
  (criteria : list Criteria.t) :
  validate_items pre = Return v -> c_marker it = Some m -> args m = [] ->
  Schema.first_rejected (kwargs m) = Some k ->
  pytest_collection_modifyitems (pre ++ it :: rest) criteria
  = Raise (SchemaError k).
Proof.
  intros Hpre Hm Hargs Hrej. unfold pytest_collection_modifyitems.
  rewrite (validate_items_app pre v it rest Hpre), Hm. simpl. rewrite Hargs.
  now rewrite (rejected_value_raises _ _ Hrej).
Qed.

(** C7 (failing input): a marker whose category is none of the five makes
    [lisa_schema.validate] raise [SchemaError], which the hook's [except]
    clause does not list: the exception leaves the hook, and no
    [pytest.exit] message naming the item is produced.  A missing key and
    positional arguments on the same run do end in such a message, and an
    item without marker passes. *)
Theorem invalid_category_is_not_reported :
  pytest_collection_modifyitems [Scenario.unmarked; Scenario.bad_category] []
  = Raise (SchemaError "category")
  /\ (forall msg,
        pytest_collection_modifyitems
          [Scenario.unmarked; Scenario.bad_category] [] <> Exit msg)
  /\ pytest_collection_modifyitems [Scenario.unmarked; Scenario.no_area] []
     = Exit "Error validating test 'test_no_area' metadata: Missing key: 'area'"
  /\ pytest_collection_modifyitems [Scenario.unmarked; Scenario.positional] []
     = Exit ("Error validating test 'test_positional' metadata: "
             ++ "LISA marker cannot have positional arguments!")%string
  /\ validate_mark (c_marker Scenario.unmarked) = Return None.
Proof.
  repeat split. intros msg H. vm_compute in H. discriminate H.
Qed.

(** ** Scope of a node id *)

Section SplitScope.

Import LISAScheduling.
Local Open Scope string_scope.

Lemma prefix_empty (s : string) : String.prefix "" s = true.
Proof. destruct s; reflexivity. Qed.

Lemma prefix_char (a c : ascii) (s : string) :
  String.prefix (String a "") (String c s) = Ascii.eqb a c.
Proof.
  change (String.prefix (String a "") (String c s))
    with (if ascii_dec a c then String.prefix "" s else false).
  destruct (ascii_dec a c) as [->|Hne].
  - now rewrite prefix_empty, Ascii.eqb_refl.
  - symmetry. now apply Ascii.eqb_neq.
Qed.

Lemma contains_cons (n : string) (c : ascii) (s : string) :
  Py.contains n (String c s)
  = String.prefix n (String c s) || Py.contains n s.
Proof. reflexivity. Qed.

Lemma contains_open_bracket (s : string) :
  Py.contains "[" (String "[" s) = true.
Proof.
  now rewrite contains_cons, prefix_char.
Qed.

Lemma contains_cons_false (n : string) (c : ascii) (s : string) :
  Py.contains n (String c s) = false ->
  String.prefix n (String c s) = false /\ Py.contains n s = false.
Proof.
  rewrite contains_cons. intros H. now apply orb_false_iff in H.
Qed.

Lemma contains_app_r (n a b : string) :
  Py.contains n b = true -> Py.contains n (a ++ b) = true.
Proof.
  intros H. induction a as [|c a IH]; [exact H|].
  change (String c a ++ b) with (String c (a ++ b)).
  rewrite contains_cons, IH. apply orb_true_r.
Qed.

Lemma no_open_bracket_head (c : ascii) (s : string) :
  Py.contains "[" (String c s) = false ->
  Ascii.eqb c "[" = false /\ Py.contains "[" s = false.
Proof.
  intros H. apply contains_cons_false in H as [Hp Hs]. split; [|exact Hs].
  rewrite prefix_char, Ascii.eqb_sym in Hp. exact Hp.
Qed.

Lemma word_is_no_bracket (c : ascii) :
  is_word c = true -> Ascii.eqb c "[" = false /\ Ascii.eqb c "]" = false.
Proof.
  intros H. split.
  - destruct (Ascii.eqb_spec c "[") as [->|_]; [discriminate H|reflexivity].
  - destruct (Ascii.eqb_spec c "]") as [->|_]; [discriminate H|reflexivity].
Qed.

Lemma bracket_free_no_open (t : string) :
  bracket_free t = true -> Py.contains "[" t = false.
Proof.
  induction t as [|c t IH]; [reflexivity|].
  simpl bracket_free. intros H.
  apply andb_true_iff in H as [H Ht]. apply andb_true_iff in H as [Ho _].
  apply negb_true_iff in Ho.
  rewrite contains_cons, prefix_char, (IH Ht), Ascii.eqb_sym, Ho.
  reflexivity.
Qed.

Lemma all_word_bracket_free (t : string) :
  all_word t = true -> bracket_free t = true.
Proof.
  induction t as [|c t IH]; [reflexivity|].
  simpl. intros H. apply andb_true_iff in H as [Hc Ht].
  destruct (word_is_no_bracket c Hc) as [-> ->]. simpl. now apply IH.
Qed.

(** Characters still covered by the last match are passed over. *)
Lemma findall_skip (t : string) (c : ascii) (rest : string) :
  findall_from (S (String.length t)) (t ++ String c rest)
  = findall_from 0 rest.
Proof.
  induction t as [|d t IH]; [reflexivity|]. exact IH.
Qed.

(** No match starts in a stretch without opening bracket. *)
Lemma findall_no_open (pre rest : string) :
  Py.contains "[" pre = false ->
  findall_from 0 (pre ++ rest) = findall_from 0 rest.
Proof.
  induction pre as [|c pre IH]; [reflexivity|].
  intros H. apply no_open_bracket_head in H as [Hc Hpre].
  change (String c pre ++ rest) with (String c (pre ++ rest)).
  simpl. rewrite Hc. now apply IH.
Qed.

Lemma word_run_all_word (t : string) (rest : string) :
  all_word t = true ->
  word_run (t ++ String "]" rest) = (t, String "]" rest).
Proof.
  induction t as [|c t IH]; [reflexivity|].
  simpl. intros H. apply andb_true_iff in H as [Hc Ht].
  now rewrite Hc, (IH Ht).
Qed.

Lemma word_run_stops (t : string) (rest : string) :
  bracket_free t = true -> all_word t = false ->
  exists w e after,
    word_run (t ++ String "]" rest) = (w, String e after)
    /\ Ascii.eqb e "]" = false.
Proof.
  induction t as [|c t IH]; [discriminate|].
  simpl. intros Hf Hw.
  apply andb_true_iff in Hf as [Hf Ht]. apply andb_true_iff in Hf as [_ Hc].
  apply negb_true_iff in Hc.
  destruct (is_word c) eqn:E.
  - simpl in Hw. destruct (IH Ht Hw) as [w [e [after [Hr He]]]].
    rewrite Hr. now exists (String c w), e, after.
  - now exists EmptyString, c, (t ++ String "]" rest).
Qed.

(** The regex at an opening bracket that starts a bracketed token. *)
Lemma match_at_token (t rest : string) :
  bracket_free t = true ->
  match_at (String "[" (t ++ String "]" rest))
  = if word_token t then Some t else None.
Proof.
  intros Hf. unfold match_at, word_token. simpl Ascii.eqb.
  cbv iota. destruct (all_word t) eqn:Hw.
  - rewrite (word_run_all_word t rest Hw).
    destruct t; reflexivity.
  - destruct (word_run_stops t rest Hf Hw) as [w [e [after [Hr He]]]].
    rewrite Hr, andb_false_r. destruct w; [reflexivity|]. now rewrite He.
Qed.

(** Of a run of bracketed tokens, [findall] returns the word tokens. *)
Lemma findall_bracketed (toks : list string) :
  forallb bracket_free toks = true ->
  findall_from 0 (bracketed toks) = filter word_token toks.
Proof.
  induction toks as [|t toks IH]; [reflexivity|].
  simpl forallb. intros H. apply andb_true_iff in H as [Ht Htoks].
  change (bracketed (t :: toks))
    with (String "[" (t ++ String "]" (bracketed toks))).
  cbn [findall_from filter]. rewrite (match_at_token t _ Ht).
  destruct (word_token t).
  - rewrite findall_skip. now rewrite (IH Htoks).
  - rewrite (findall_no_open t _ (bracket_free_no_open t Ht)).
    simpl. now apply IH.
Qed.

Lemma bracketed_has_open (pre t : string) (toks : list string) :
  Py.contains "[" (pre ++ bracketed (t :: toks)) = true.
Proof.
  apply contains_app_r. apply contains_open_bracket.
Qed.

Lemma split_scope_bracketed (pre : string) (toks : list string) :
  Py.contains "[" pre = false -> toks <> [] ->
  forallb bracket_free toks = true ->
  _split_scope (pre ++ bracketed toks)
  = String.concat "/" (filter word_token toks).
Proof.
  intros Hpre Hne Hf. destruct toks as [|t toks]; [contradiction|].
  unfold _split_scope. rewrite bracketed_has_open.
  unfold findall. rewrite (findall_no_open _ _ Hpre).
  now rewrite (findall_bracketed _ Hf).
Qed.

End SplitScope.

Section ScopeClaims.

Import LISAScheduling.
Local Open Scope string_scope.

Lemma word_run_is_word (s : string) : all_word (fst (word_run s)) = true.
Proof.
  induction s as [|c s IH]; [reflexivity|].
  simpl. destruct (is_word c) eqn:E; [|reflexivity].
  destruct (word_run s) as [w after]. simpl in *. now rewrite E.
Qed.

Lemma match_at_word (s tok : string) :
  match_at s = Some tok -> word_token tok = true.
Proof.
  destruct s as [|c rest]; [discriminate|].
  unfold match_at. destruct (Ascii.eqb c "["); [|discriminate].
  pose proof (word_run_is_word rest) as Hw.
  destruct (word_run rest) as [[|d w] [|e after]]; try discriminate.
  destruct (Ascii.eqb e "]"); [|discriminate].
  intros [= <-]. exact Hw.
Qed.

(** Every token [findall] returns is a non-empty run of word
    characters. *)
Lemma findall_word_tokens (s tok : string) (skip : nat) :
  In tok (findall_from skip s) -> word_token tok = true.
Proof.
  revert skip. induction s as [|c s IH]; intros skip; [intros []|].
  cbn [findall_from]. destruct skip as [|k]; [|apply IH].
  destruct (match_at (String c s)) as [t|] eqn:E; [|apply IH].
  intros [<-|H]; [now apply match_at_word in E|now apply IH in H].
Qed.

Lemma filter_word_tokens (toks : list string) :
  forallb word_token toks = true -> filter word_token toks = toks.
Proof. apply forallb_filter_id. Qed.

Lemma word_tokens_bracket_free (toks : list string) :
  forallb word_token toks = true -> forallb bracket_free toks = true.
Proof.
  induction toks as [|t toks IH]; [reflexivity|].
  simpl. intros H. apply andb_true_iff in H as [Ht Htoks].
  unfold word_token in Ht. apply andb_true_iff in Ht as [_ Ht].
  now rewrite (all_word_bracket_free t Ht), (IH Htoks).
Qed.

Lemma filter_no_word_tokens (toks : list string) :
  forallb (fun t => negb (word_token t)) toks = true ->
  filter word_token toks = [].
Proof.
  induction toks as [|t toks IH]; [reflexivity|].
  simpl. intros H. apply andb_true_iff in H as [Ht Htoks].
  apply negb_true_iff in Ht. now rewrite Ht, (IH Htoks).
Qed.

(** [rsplit] finds no separator where there is none. *)
Lemma rfind_absent (sep s : string) :
  Py.contains sep s = false -> rfind sep s = None.
Proof.
  induction s as [|c s IH]; [reflexivity|].
  intros H. apply contains_cons_false in H as [Hp Hs].
  cbn [rfind]. now rewrite (IH Hs), Hp.
Qed.

Lemma rfind_app (sep a s : string) (k : nat) :
  rfind sep s = Some k -> rfind sep (a ++ s) = Some (String.length a + k).
Proof.
  intros H. induction a as [|c a IH]; [exact H|].
  change (String c a ++ s) with (String c (a ++ s)).
  cbn [rfind]. now rewrite IH.
Qed.

Lemma substring_app (a s : string) :
  String.substring 0 (String.length a) (a ++ s) = a.
Proof.
  induction a as [|c a IH]; [now destruct s|].
  simpl. now rewrite IH.
Qed.

(** [rsplit("::", 1)[0]] where the last [::] is known. *)
Lemma super_split_scope_last (a b : string) :
  Py.contains "::" (":" ++ b) = false ->
  super_split_scope (a ++ "::" ++ b) = a.
Proof.
  intros H. unfold super_split_scope.
  assert (Hr : rfind "::" ("::" ++ b) = Some 0).
  { change ("::" ++ b) with (String ":" (":" ++ b)).
    cbn [rfind]. rewrite (rfind_absent _ _ H).
    change (String ":" (":" ++ b)) with (String ":" (String ":" b)).
    change (String.prefix "::" (String ":" (String ":" b)))
      with (String.prefix "" b).
    now rewrite prefix_empty. }
  rewrite (rfind_app "::" a _ 0 Hr), Nat.add_0_r.
  apply substring_app.
Qed.

Lemma super_split_scope_whole (nodeid : string) :
  Py.contains "::" nodeid = false -> super_split_scope nodeid = nodeid.
Proof.
  intros H. unfold super_split_scope. now rewrite rfind_absent.
Qed.

(** When the bracketed tokens behind a bracket-free name are all
    non-empty runs of word characters, the scope is the tokens joined by a
    slash, left to right; a node id without opening bracket gets the scope
    of [LoadScopeScheduling]: what stands before its last [::], or all of
    it when it has none. *)
Theorem scope_joins_word_tokens (pre : string) (toks : list string)
  (a b : string) :
  (Py.contains "[" pre = false -> toks <> [] ->
   forallb word_token toks = true ->
   _split_scope (pre ++ bracketed toks) = String.concat "/" toks)
  /\ (Py.contains "[" (a ++ "::" ++ b) = false ->
      Py.contains "::" (":" ++ b) = false ->
      _split_scope (a ++ "::" ++ b) = a)
  /\ (Py.contains "[" a = false -> Py.contains "::" a = false ->
      _split_scope a = a).
Proof.
  split; [|split].
  - intros Hpre Hne Hw.
    rewrite (split_scope_bracketed pre toks Hpre Hne
               (word_tokens_bracket_free toks Hw)).
    now rewrite filter_word_tokens.
  - intros Hno Hlast. unfold _split_scope. rewrite Hno.
    now apply super_split_scope_last.
  - intros Hno Hsep. unfold _split_scope. rewrite Hno.
    now apply super_split_scope_whole.
Qed.

Lemma scope_joins_word_tokens_witness :
  _split_scope "mod::test_f[A]" = "A"
  /\ _split_scope "mod::test_f[B]" = "B"
  /\ _split_scope "mod::test_g[A][B]" = "A/B"
  /\ _split_scope "example/test_module.py::TestClass::test_function"
     = "example/test_module.py::TestClass".
Proof.
  split; [|split; [|split]].
  - apply (proj1 (scope_joins_word_tokens "mod::test_f" ["A"] "" ""));
      [reflexivity|discriminate|reflexivity].
  - apply (proj1 (scope_joins_word_tokens "mod::test_f" ["B"] "" ""));
      [reflexivity|discriminate|reflexivity].
  - apply (proj1 (scope_joins_word_tokens "mod::test_g" ["A"; "B"] "" ""));
      [reflexivity|discriminate|reflexivity].
  - apply (proj1 (proj2 (scope_joins_word_tokens "" []
             "example/test_module.py::TestClass" "test_function")));
      reflexivity.
Defined.

(** C8 (failing input): the one bracketed parameter of [mod::test_f[a-b]]
    is [a-b]; the pattern does not match it, and the scope is the empty
    string instead of [a-b]. *)
Lemma dashed_token_is_not_the_scope :
  ("mod::test_f" ++ bracketed ["a-b"]) = "mod::test_f[a-b]"
  /\ findall "mod::test_f[a-b]" = []
  /\ _split_scope "mod::test_f[a-b]" = ""
  /\ _split_scope ("mod::test_f" ++ bracketed ["a-b"])
     <> String.concat "/" ["a-b"].
Proof.
  split; [reflexivity|]. split; [reflexivity|]. split; [reflexivity|].
  vm_compute. discriminate.
Qed.

(** C9: a node id with an opening bracket gets the joined result of
    [findall], whose tokens are all non-empty runs of word characters;
    so of the bracketed tokens behind a bracket-free name only those are
    joined, the others are dropped, and when none is left the scope is
    the empty string, not the scope of [LoadScopeScheduling]. *)
Theorem only_word_tokens_are_joined (pre : string) (toks : list string) :
  (forall nodeid, Py.contains "[" nodeid = true ->
      _split_scope nodeid = String.concat "/" (findall nodeid))
  /\ (forall nodeid tok, In tok (findall nodeid) -> word_token tok = true)
  /\ (Py.contains "[" pre = false -> toks <> [] ->
      forallb bracket_free toks = true ->
      _split_scope (pre ++ bracketed toks)
      = String.concat "/" (filter word_token toks)
      /\ (forallb (fun t => negb (word_token t)) toks = true ->
          _split_scope (pre ++ bracketed toks) = ""))
  /\ _split_scope "mod::test[a-b]" = ""
  /\ super_split_scope "mod::test[a-b]" = "mod".
Proof.
  split; [|split; [|split]].
  - intros nodeid H. unfold _split_scope. now rewrite H.
  - intros nodeid tok. apply findall_word_tokens.
  - intros Hpre Hne Hf.
    rewrite (split_scope_bracketed pre toks Hpre Hne Hf).
    split; [reflexivity|]. intros Hnone.
    now rewrite filter_no_word_tokens.
  - split; reflexivity.
Qed.

Lemma only_word_tokens_are_joined_witness :
  _split_scope ("mod::test" ++ bracketed ["a-b"; "C_1"; ""; "x.y"; "D"])
  = "C_1/D"
  /\ _split_scope ("mod::test" ++ bracketed ["a-b"; "1.5"]) = ""
  /\ _split_scope
       ("mod::test" ++ bracketed [String (ascii_of_nat 233) ""; "B"; "a b"])
     = String (ascii_of_nat 233) "/B".
Proof.
  split; [|split].
  - apply (proj1 (proj2 (proj2 (only_word_tokens_are_joined "mod::test"
             ["a-b"; "C_1"; ""; "x.y"; "D"]))));
      [reflexivity|discriminate|reflexivity].
  - apply (proj1 (proj2 (proj2 (only_word_tokens_are_joined "mod::test"
             ["a-b"; "1.5"]))));
      [reflexivity|discriminate|reflexivity|reflexivity].
  - apply (proj1 (proj2 (proj2 (only_word_tokens_are_joined "mod::test"
             [String (ascii_of_nat 233) ""; "B"; "a b"]))));
      [reflexivity|discriminate|reflexivity].
Defined.

(** The word characters among the code points below 256, as Python's
    [re] has them for a [str] pattern. *)
Lemma word_characters_below_256 :
  filter (fun n => is_word (ascii_of_nat n)) (seq 0 256)
  = [48; 49; 50; 51; 52; 53; 54; 55; 56; 57; 65; 66; 67; 68; 69; 70; 71; 72;
    73; 74; 75; 76; 77; 78; 79; 80; 81; 82; 83; 84; 85; 86; 87; 88; 89; 90;
    95; 97; 98; 99; 100; 101; 102; 103; 104; 105; 106; 107; 108; 109; 110;
    111; 112; 113; 114; 115; 116; 117; 118; 119; 120; 121; 122; 170; 178;
    179; 181; 185; 186; 188; 189; 190; 192; 193; 194; 195; 196; 197; 198;
    199; 200; 201; 202; 203; 204; 205; 206; 207; 208; 209; 210; 211; 212;
    213; 214; 216; 217; 218; 219; 220; 221; 222; 223; 224; 225; 226; 227;
    228; 229; 230; 231; 232; 233; 234; 235; 236; 237; 238; 239; 240; 241;
    242; 243; 244; 245; 246; 248; 249; 250; 251; 252; 253; 254; 255]%nat.
Proof. vm_compute. reflexivity. Qed.

End ScopeClaims.


(** * Further properties of the hook *)

(** ** What the selection can contain *)

(** X1: the hook selects collected items only. *)
Theorem selected_items_are_collected (items : list Item)
  (criteria : list Criteria.t) (j : Item) :
  In j (select_items items criteria) -> In j items.
Proof.
  rewrite select_items_filter. intros H.
  apply filter_In in H as [H _]. now apply fallback_in_items in H.
Qed.

Lemma selected_items_are_collected_witness :
  In Scenario.t3
    [Scenario.t1; Scenario.t2; Scenario.t3].
Proof.
  apply (selected_items_are_collected
           [Scenario.t1; Scenario.t2; Scenario.t3]
           [Scenario.by_priority 1 2] Scenario.t3).
  vm_compute. auto.
Defined.

Lemma unmarked_never_matches (c : Criteria.t) (j : Item) :
  marker j = None -> item_matches c j = false.
Proof.
  intros H. unfold item_matches. now rewrite H.
Qed.

Lemma unmarked_never_excluded (criteria : list Criteria.t) (j : Item) :
  marker j = None -> is_excluded criteria j = false.
Proof.
  intros H. unfold is_excluded.
  induction criteria as [|c cs IH]; [reflexivity|].
  simpl. now rewrite (unmarked_never_matches c j H), andb_false_r.
Qed.

(** X2: an item without marker is out of reach of the criteria: no record
    includes it and none excludes it.  It is selected exactly when no item
    at all was included, and then as often as it was collected. *)
Theorem unmarked_items_run_only_by_fallback (items : list Item)
  (criteria : list Criteria.t) (j : Item) :
  marker j = None ->
  ~ In j (included (run_criteria items criteria init))
  /\ ~ In j (excluded (run_criteria items criteria init))
  /\ count j (select_items items criteria)
     = match included (run_criteria items criteria init) with
       | [] => count j items
       | _ => 0
       end.
Proof.
  intros Hm.
  assert (Hinc : ~ In j (included (run_criteria items criteria init))).
  { intros H. apply run_criteria_included in H as [[]|[_ [c [_ [_ Hc]]]]].
    rewrite (unmarked_never_matches c j Hm) in Hc. discriminate Hc. }
  split; [exact Hinc|]. split.
  - intros H. apply run_criteria_excluded in H as [[]|[_ H]].
    rewrite (unmarked_never_excluded criteria j Hm) in H. discriminate H.
  - rewrite select_items_filter, count_filter_keep
      by now rewrite (unmarked_never_excluded criteria j Hm).
    unfold fallback.
    destruct (included (run_criteria items criteria init)) as [|a l];
      [reflexivity|].
    now apply count_occ_not_In.
Qed.

Lemma unmarked_items_run_only_by_fallback_witness :
  ~ In (mkItem 10 "test_flake8" "testsuites.sample" None)
      (select_items
         [Scenario.t1; mkItem 10 "test_flake8" "testsuites.sample" None]
         [Scenario.by_priority 1 1]).
Proof.
  apply count_occ_not_In with (eq_dec := Item_eq_dec).
  apply (proj2 (proj2 (unmarked_items_run_only_by_fallback
           [Scenario.t1; mkItem 10 "test_flake8" "testsuites.sample" None]
           [Scenario.by_priority 1 1]
           (mkItem 10 "test_flake8" "testsuites.sample" None) eq_refl))).
Defined.

(** ** The order of the criteria *)

Lemma fold_max_permutation (l l' : list Z) :
  Permutation l l' -> forall a, fold_left Z.max l a = fold_left Z.max l' a.
Proof.
  induction 1 as [|x l l' _ IH|x y l|l l' l'' _ IH1 _ IH2]; intros a; simpl.
  - reflexivity.
  - apply IH.
  - f_equal. lia.
  - now rewrite IH1.
Qed.

Lemma filter_permutation {A : Type} (f : A -> bool) (l l' : list A) :
  Permutation l l' -> Permutation (filter f l) (filter f l').
Proof.
  induction 1 as [|x l l' _ IH|x y l|l l' l'' _ IH1 _ IH2]; simpl.
  - constructor.
  - destruct (f x); [now constructor|exact IH].
  - destruct (f x), (f y); try reflexivity. constructor.
  - now transitivity (filter f l').
Qed.

Lemma matching_times_permutation (cs cs' : list Criteria.t) (j : Item) :
  Permutation cs cs' ->
  Permutation (matching_times cs j) (matching_times cs' j).
Proof.
  intros H. unfold matching_times.
  now apply Permutation_map, filter_permutation.
Qed.

Lemma is_excluded_permutation (cs cs' : list Criteria.t) (j : Item) :
  Permutation cs cs' -> is_excluded cs j = is_excluded cs' j.
Proof.
  intros H. unfold is_excluded.
  destruct (existsb _ cs') eqn:E'.
  - apply existsb_exists in E' as [c [Hc Hm]]. apply existsb_exists.
    exists c. split; [|exact Hm]. apply Permutation_in with (l := cs');
      [now symmetry|exact Hc].
  - destruct (existsb _ cs) eqn:E; [|reflexivity].
    apply existsb_exists in E as [c [Hc Hm]].
    assert (E2 : existsb
                   (fun c => Criteria.exclude c && item_matches c j) cs'
                 = true).
    { apply existsb_exists. exists c. split; [|exact Hm].
      now apply Permutation_in with (l := cs). }
    congruence.
Qed.

Lemma included_count_permutation (items : list Item)
  (cs cs' : list Criteria.t) (j : Item) :
  Permutation cs cs' ->
  count j (included (run_criteria items cs init))
  = count j (included (run_criteria items cs' init)).
Proof.
  intros H. destruct (in_dec Item_eq_dec j items) as [Hin|Hout].
  - apply Nat2Z.inj. rewrite !(run_criteria_count items _ init j Hin).
    apply fold_max_permutation. now apply matching_times_permutation.
  - assert (Hnot : forall l, ~ In j (included (run_criteria items l init))).
    { intros l Hj. apply run_criteria_included in Hj as [[]|[Hj _]].
      now apply Hout. }
    unfold count.
    rewrite (proj1 (count_occ_not_In Item_eq_dec _ j) (Hnot cs)).
    now rewrite (proj1 (count_occ_not_In Item_eq_dec _ j) (Hnot cs')).
Qed.

Lemma same_counts_same_emptiness (l l' : list Item) :
  (forall j, count j l = count j l') -> l = [] -> l' = [].
Proof.
  intros H ->. destruct l' as [|a l']; [reflexivity|].
  specialize (H a). unfold count in H. simpl in H.
  destruct (Item_eq_dec a a) as [_|Hne]; [discriminate H|now elim Hne].
Qed.

Lemma count_filter_drop (f : Item -> bool) (l : list Item) (j : Item) :
  f j = false -> count j (filter f l) = 0.
Proof.
  intros Hj. apply count_occ_not_In. intros H.
  apply filter_In in H as [_ H]. congruence.
Qed.

(** X3: reordering the criteria records changes at most the order of the
    selection: every item is selected the same number of times. *)
Theorem criteria_order_keeps_selection (items : list Item)
  (cs cs' : list Criteria.t) :
  Permutation cs cs' ->
  Permutation (select_items items cs) (select_items items cs').
Proof.
  intros H. apply (Permutation_count_occ Item_eq_dec). intros j.
  change (count j (select_items items cs) = count j (select_items items cs')).
  rewrite !select_items_filter.
  assert (Hfb : count j (fallback items (run_criteria items cs init))
                = count j (fallback items (run_criteria items cs' init))).
  { pose proof (fun k => included_count_permutation items cs cs' k H) as Hc.
    pose proof (same_counts_same_emptiness _ _ Hc) as Hemp.
    assert (Hemp' : included (run_criteria items cs' init) = [] ->
                    included (run_criteria items cs init) = []).
    { apply same_counts_same_emptiness. intros k. symmetry. apply Hc. }
    specialize (Hc j). unfold fallback.
    destruct (included (run_criteria items cs init)) as [|a l];
      destruct (included (run_criteria items cs' init)) as [|a' l'].
    - reflexivity.
    - discriminate (Hemp eq_refl).
    - discriminate (Hemp' eq_refl).
    - exact Hc. }
  pose proof (is_excluded_permutation cs cs' j H) as Hx.
  destruct (is_excluded cs j) eqn:Ex.
  - rewrite !count_filter_drop; [reflexivity| |].
    + now rewrite <- Hx.
    + now rewrite Ex.
  - rewrite !count_filter_keep; [exact Hfb| |].
    + now rewrite <- Hx.
    + now rewrite Ex.
Qed.

Lemma criteria_order_keeps_selection_witness :
  Permutation
    (select_items [Scenario.t1; Scenario.t2; Scenario.t3; Scenario.x1]
       [Scenario.by_priority 2 1; Scenario.by_priority 1 2;
        Scenario.without_area "xdp"])
    (select_items [Scenario.t1; Scenario.t2; Scenario.t3; Scenario.x1]
       [Scenario.by_priority 1 2; Scenario.by_priority 2 1;
        Scenario.without_area "xdp"]).
Proof.
  apply (criteria_order_keeps_selection
           [Scenario.t1; Scenario.t2; Scenario.t3; Scenario.x1]).
  apply perm_swap.
Defined.

(** ** Markers that pass validation *)

Lemma as_category_known (v : pyval) (s : string) :
  Schema.as_category v = Some s ->
  v = PyStr s /\ In s Schema.categories.
Proof.
  destruct v as [|z|s'|l]; try discriminate. unfold Schema.as_category.
  destruct (Py.str_mem s' Schema.categories) eqn:E; [|discriminate].
  intros [= <-]. split; [reflexivity|].
  unfold Py.str_mem in E. apply existsb_exists in E as [x [Hx Heq]].
  apply String.eqb_eq in Heq. now subst.
Qed.

Lemma as_priority_range (v : pyval) (z : Z) :
  Schema.as_priority v = Some z -> v = PyInt z /\ (0 <= z <= 3)%Z.
Proof.
  destruct v as [|z'|s|l]; try discriminate. unfold Schema.as_priority.
  destruct ((0 <=? z') && (z' <=? 3))%Z eqn:E; [|discriminate].
  intros [= <-]. split; [reflexivity|]. lia.
Qed.

Lemma as_str_inv (v : pyval) (s : string) :
  Schema.as_str v = Some s -> v = PyStr s.
Proof.
  destruct v; try discriminate. now intros [= <-].
Qed.

(** X4: a marker that [validate_mark] accepts has no positional argument, a
    category among the five, a priority from 0 to 3, its platform and area
    as given, and the empty list for [features] and for [tags] when the
    marker does not give them. *)
Theorem validated_marker_fits_schema (m : Mark) (i : Meta.t) :
  validate_mark (Some m) = Return (Some i) ->
  args m = []
  /\ Schema.get "platform" (kwargs m) = Some (PyStr (Meta.platform i))
  /\ Schema.get "category" (kwargs m) = Some (PyStr (Meta.category i))
  /\ In (Meta.category i) Schema.categories
  /\ Schema.get "area" (kwargs m) = Some (PyStr (Meta.area i))
  /\ Schema.get "priority" (kwargs m) = Some (PyInt (Meta.priority i))
  /\ (0 <= Meta.priority i <= 3)%Z
  /\ (Schema.get "features" (kwargs m) = None -> Meta.features i = [])
  /\ (Schema.get "tags" (kwargs m) = None -> Meta.tags i = []).
Proof.
  unfold validate_mark. destruct (args m) as [|a l]; [|discriminate].
  unfold Schema.validate, Schema.read, Schema.read_default.
  destruct (Schema.first_rejected (kwargs m)); [discriminate|].
  destruct (Schema.get "platform" (kwargs m)) as [vp|]; [|discriminate].
  destruct (Schema.as_str vp) as [p|] eqn:Ep; [|discriminate].
  destruct (Schema.get "category" (kwargs m)) as [vc|]; [|discriminate].
  destruct (Schema.as_category vc) as [c|] eqn:Ec; [|discriminate].
  destruct (Schema.get "area" (kwargs m)) as [va|]; [|discriminate].
  destruct (Schema.as_str va) as [a|] eqn:Ea; [|discriminate].
  destruct (Schema.get "priority" (kwargs m)) as [vz|]; [|discriminate].
  destruct (Schema.as_priority vz) as [z|] eqn:Ez; [|discriminate].
  intros [= <-]. simpl.
  apply as_str_inv in Ep, Ea. apply as_category_known in Ec as [-> Hc].
  apply as_priority_range in Ez as [-> Hz]. subst.
  repeat split; try assumption; try lia.
  - intros H. unfold Schema.read. now rewrite H.
  - intros H. unfold Schema.read. now rewrite H.
Qed.

Lemma validated_marker_fits_schema_witness :
  Meta.priority (Scenario.meta 1 "net") = 1%Z
  /\ Meta.tags (Scenario.meta 1 "net") = [].
Proof.
  pose proof (validated_marker_fits_schema
                (mkMark []
                   [("platform", PyStr "azure");
                    ("category", PyStr "Functional");
                    ("area", PyStr "net"); ("priority", PyInt 1)])
                (Scenario.meta 1 "net") eq_refl) as H.
  split; [reflexivity|]. apply H. reflexivity.
Defined.

Lemma positional_arguments_exit_witness :
  pytest_collection_modifyitems
    ([Scenario.unmarked] ++ Scenario.positional :: [Scenario.no_area]) []
  = Exit ("Error validating test 'test_positional' metadata: "
          ++ "LISA marker cannot have positional arguments!")%string.
Proof.
  apply (positional_arguments_exit [Scenario.unmarked]
           [mkItem 10 "test_flake8" "testsuites.sample" None]
           Scenario.positional [Scenario.no_area]
           (mkMark [PyStr "azure"]
              [("platform", PyStr "azure"); ("category", PyStr "Stress");
               ("area", PyStr "net"); ("priority", PyInt 1)]) []);
    [reflexivity|reflexivity|discriminate].
Defined.

Lemma missing_key_exit_witness :
  pytest_collection_modifyitems
    ([Scenario.unmarked] ++ Scenario.no_area :: [Scenario.positional]) []
  = Exit "Error validating test 'test_no_area' metadata: Missing key: 'area'".
Proof.
  apply (missing_key_exit [Scenario.unmarked]
           [mkItem 10 "test_flake8" "testsuites.sample" None]
           Scenario.no_area [Scenario.positional]
           (mkMark []
              [("platform", PyStr "azure"); ("category", PyStr "Stress");
               ("priority", PyInt 1)]) []);
    [reflexivity|reflexivity|reflexivity|reflexivity|discriminate].
Defined.

Lemma acceptable_validates (it : Collected) :
  acceptable it = true -> exists i, validate_mark (c_marker it) = Return i.
Proof.
  unfold acceptable, validate_mark. destruct (c_marker it) as [m|].
  - intros H. apply andb_true_iff in H as [H Hmiss].
    apply andb_true_iff in H as [Hargs Hrej].
    destruct (args m) as [|a l]; [|discriminate Hargs].
    destruct (Schema.first_rejected (kwargs m)) as [k|] eqn:Er;
      [discriminate Hrej|].
    destruct (Schema.missing (kwargs m)) as [|k ks] eqn:Em;
      [|discriminate Hmiss].
    destruct (complete_marker_validates (kwargs m) Er Em) as [i Hi].
    rewrite Hi. now exists (Some i).
  - now exists None.
Qed.

(** X7: when every marker of the collection is absent or acceptable, the hook
    neither exits nor raises: it returns the selection made among the very
    items it was given, which keep their identity, name, module and
    whether they carry a marker, in collection order. *)
Theorem acceptable_collection_is_selected (items : list Collected)
  (criteria : list Criteria.t) :
  forallb acceptable items = true ->
  exists v,
    pytest_collection_modifyitems items criteria
    = Return (select_items v criteria)
    /\ map oid v = map c_oid items
    /\ map name v = map c_name items
    /\ map module_name v = map c_module_name items
    /\ map (fun i => Schema.is_some (marker i)) v
       = map (fun it => Schema.is_some (c_marker it)) items.
Proof.
  intros H.
  assert (Hv : exists v,
             validate_items items = Return v
             /\ map oid v = map c_oid items
             /\ map name v = map c_name items
             /\ map module_name v = map c_module_name items
             /\ map (fun i => Schema.is_some (marker i)) v
                = map (fun it => Schema.is_some (c_marker it)) items).
  { induction items as [|it rest IH]; [now exists []|].
    simpl in H. apply andb_true_iff in H as [Hit Hrest].
    destruct (IH Hrest) as [r [Hr [Ho [Hn [Hm Hk]]]]].
    destruct (acceptable_validates it Hit) as [i Hi].
    exists (mkItem (c_oid it) (c_name it) (c_module_name it) i :: r).
    simpl. rewrite Hi, Hr, Ho, Hn, Hm, Hk. repeat split.
    f_equal. unfold validate_mark in Hi.
    destruct (c_marker it) as [m|]; [|now injection Hi as <-].
    destruct (args m); [|discriminate Hi].
    destruct (Schema.validate (kwargs m)); try discriminate Hi.
    now injection Hi as <-. }
  destruct Hv as [v [Hv Hrest]]. exists v. split; [|exact Hrest].
  unfold pytest_collection_modifyitems. now rewrite Hv.
Qed.

Lemma acceptable_collection_is_selected_witness :
  exists v,
    pytest_collection_modifyitems
      [Scenario.unmarked;
       mkCollected 1 "t1" "testsuites.sample"
         (Some (mkMark []
            [("platform", PyStr "azure"); ("category", PyStr "Functional");
             ("area", PyStr "net"); ("priority", PyInt 1)]))]
      [Scenario.by_priority 1 2]
    = Return (select_items v [Scenario.by_priority 1 2])
    /\ map oid v = [10; 1].
Proof.
  destruct (acceptable_collection_is_selected
              [Scenario.unmarked;
               mkCollected 1 "t1" "testsuites.sample"
                 (Some (mkMark []
                    [("platform", PyStr "azure");
                     ("category", PyStr "Functional");
                     ("area", PyStr "net"); ("priority", PyInt 1)]))]
              [Scenario.by_priority 1 2] eq_refl) as [v [H1 [H2 _]]].
  exists v. split; [exact H1|exact H2].
Defined.

(** ** Matching by name and by area *)

Lemma prefix_app (n b : string) : String.prefix n (n ++ b) = true.
Proof.
  induction n as [|c n IH]; [apply prefix_empty|].
  change (String.prefix (String c n) (String c n ++ b))
    with (if ascii_dec c c then String.prefix n (n ++ b) else false).
  destruct (ascii_dec c c) as [_|Hne]; [exact IH|now elim Hne].
Qed.

Lemma contains_infix (a n b : string) :
  Py.contains n (a ++ n ++ b) = true.
Proof.
  apply contains_app_r. pose proof (prefix_app n b) as H.
  destruct (n ++ b)%string as [|c s]; unfold Py.contains; now rewrite H.
Qed.

(** X8: a record with a non-empty [name] matches every marked item whose name
    contains it, whatever the record's other fields say. *)
Theorem name_criterion_matches_substring (c : Criteria.t) (item : Item)
  (i : Meta.t) (n a b : string) :
  Criteria.name c = Some n -> n <> EmptyString ->
  marker item = Some i -> name item = (a ++ n ++ b)%string ->
  item_matches c item = true.
Proof.
  intros Hc Hn Hm Hname. unfold item_matches. rewrite Hm.
  unfold matches, any, operands. simpl. rewrite Hc, Hname.
  unfold and_str. rewrite contains_infix.
  destruct n; [now elim Hn|reflexivity].
Qed.

Lemma name_criterion_matches_substring_witness :
  item_matches
    (Criteria.mk (Some "smoke") None (Some "xdp") None (Some 3%Z) [] 2 false)
    (mkItem 11 "test_smoke_boot" "testsuites.sample"
       (Some (Scenario.meta 1 "net")))
  = true.
Proof.
  apply (name_criterion_matches_substring
           (Criteria.mk (Some "smoke") None (Some "xdp") None (Some 3%Z) []
              2 false)
           (mkItem 11 "test_smoke_boot" "testsuites.sample"
              (Some (Scenario.meta 1 "net")))
           (Scenario.meta 1 "net") "smoke" "test_" "_boot");
    [reflexivity|discriminate|reflexivity|reflexivity].
Defined.






(** ** Grouping by scope *)

Section ScopeGrouping.

Import LISAScheduling.
Local Open Scope string_scope.

(** X10: tests that carry the same bracketed parameters get the same scope,
    whatever their file, class and function names. *)
Theorem same_parameters_same_scope (pre1 pre2 : string)
  (toks : list string) :
  Py.contains "[" pre1 = false -> Py.contains "[" pre2 = false ->
  toks <> [] -> forallb bracket_free toks = true ->
  _split_scope (pre1 ++ bracketed toks)
  = _split_scope (pre2 ++ bracketed toks).
Proof.
  intros H1 H2 Hne Hf.
  now rewrite (split_scope_bracketed pre1 toks H1 Hne Hf),
    (split_scope_bracketed pre2 toks H2 Hne Hf).
Qed.

Lemma same_parameters_same_scope_witness :
  _split_scope "example/test_module.py::test_function[A][B]"
  = _split_scope "other/test_extra.py::TestClass::test_more[A][B]".
Proof.
  apply (same_parameters_same_scope "example/test_module.py::test_function"
           "other/test_extra.py::TestClass::test_more" ["A"; "B"]);
    [reflexivity|reflexivity|discriminate|reflexivity].
Defined.

Lemma rfind_none_absent (s : string) :
  rfind "::" s = None -> Py.contains "::" s = false.
Proof.
  induction s as [|c s IH]; [reflexivity|].
  cbn [rfind]. destruct (rfind "::" s) as [k|]; [discriminate|].
  destruct (String.prefix "::" (String c s)) eqn:E; [discriminate|].
  intros _. rewrite contains_cons, E. now apply IH.
Qed.

Lemma prefix_separator (s : string) :
  String.prefix "::" s = true -> exists b, s = "::" ++ b.
Proof.
  destruct s as [|c1 [|c2 b]].
  - discriminate.
  - change (String.prefix "::" (String c1 ""))
      with (if ascii_dec ":" c1 then false else false).
    destruct (ascii_dec ":" c1); discriminate.
  - change (String.prefix "::" (String c1 (String c2 b)))
      with (if ascii_dec ":" c1
            then if ascii_dec ":" c2 then String.prefix "" b else false
            else false).
    destruct (ascii_dec ":" c1) as [<-|]; [|discriminate].
    destruct (ascii_dec ":" c2) as [<-|]; [|discriminate].
    intros _. now exists b.
Qed.

Lemma rfind_last (s : string) (k : nat) :
  rfind "::" s = Some k ->
  exists b, s = String.substring 0 k s ++ "::" ++ b
            /\ Py.contains "::" b = false.
Proof.
  revert k. induction s as [|c s IH]; intros k; [discriminate|].
  cbn [rfind]. destruct (rfind "::" s) as [k'|] eqn:E.
  - intros [= <-]. destruct (IH k' eq_refl) as [b [Hs Hb]].
    exists b. split; [|exact Hb]. simpl. f_equal. exact Hs.
  - destruct (String.prefix "::" (String c s)) eqn:Ep; [|discriminate].
    intros [= <-]. apply prefix_separator in Ep as [b Hb].
    exists b. split; [exact Hb|].
    injection Hb as -> ->. apply rfind_none_absent in E.
    now apply contains_cons_false in E as [_ E].
Qed.

(** X11: without opening bracket, a node id with a [::] is its scope, then
    [::], then a rest that has no [::]: the scope is what stands before
    the last separator, so the tests of one class, or the functions of one
    module, share it. *)
Theorem fallback_scope_splits_at_last_separator (nodeid : string) :
  Py.contains "[" nodeid = false -> Py.contains "::" nodeid = true ->
  exists rest,
    nodeid = _split_scope nodeid ++ "::" ++ rest
    /\ Py.contains "::" rest = false.
Proof.
  intros Hno Hsep. unfold _split_scope, super_split_scope. rewrite Hno.
  destruct (rfind "::" nodeid) as [k|] eqn:E.
  - now apply rfind_last.
  - apply rfind_none_absent in E. congruence.
Qed.

Lemma fallback_scope_splits_at_last_separator_witness :
  exists rest,
    "example/test_module.py::TestClass::test_one"
    = _split_scope "example/test_module.py::TestClass::test_one"
      ++ "::" ++ rest
    /\ Py.contains "::" rest = false.
Proof.
  apply (fallback_scope_splits_at_last_separator
           "example/test_module.py::TestClass::test_one");
    reflexivity.
Defined.

End ScopeGrouping.

(** ** How often an item is selected *)

(** X12: how often a collected item stands in the selection: not at all
    when a record with [exclude] matches it; otherwise, when the criteria
    included nothing, as often as it was collected, and else the largest
    times value of the non-exclude records that match it, clamped at
    zero. *)
Theorem selection_count (items : list Item) (criteria : list Criteria.t)
  (j : Item) :
  In j items ->
  count j (select_items items criteria)
  = if is_excluded criteria j then 0
    else match included (run_criteria items criteria init) with
         | [] => count j items
         | _ => Z.to_nat (max_times0 (matching_times criteria j))
         end.
Proof.
  intros Hin. rewrite select_items_filter.
  destruct (is_excluded criteria j) eqn:Ex.
  - apply count_filter_drop. now rewrite Ex.
  - rewrite count_filter_keep by now rewrite Ex.
    pose proof (run_criteria_count items criteria init j Hin) as Hc.
    unfold fallback.
    destruct (included (run_criteria items criteria init)) as [|a l];
      [reflexivity|].
    change (fold_left Z.max (matching_times criteria j)
              (Z.of_nat (count j (included init))))
      with (max_times0 (matching_times criteria j)) in Hc.
    rewrite <- Hc. now rewrite Nat2Z.id.
Qed.

Lemma selection_count_witness :
  count Scenario.t1
    (select_items [Scenario.t1; Scenario.t1; Scenario.t2; Scenario.x1]
       [Scenario.by_priority 1 3; Scenario.by_priority 1 2;
        Scenario.without_area "xdp"])
  = 3.
Proof.
  rewrite (selection_count
             [Scenario.t1; Scenario.t1; Scenario.t2; Scenario.x1]
             [Scenario.by_priority 1 3; Scenario.by_priority 1 2;
              Scenario.without_area "xdp"] Scenario.t1 (or_introl eq_refl)).
  reflexivity.
Defined.
